(** * availabilityio: the TMDB digital-release stream handler

    A shallow embedding of [src/index.ts].  The add-on answers one request
    (a media type and an identifier) with a list of display entries; on the
    way it asks the TMDB API twice.  Strings are [string], JavaScript numbers
    that are identifiers, type codes and epoch milliseconds are [Z], an
    optional field is an [option], and an [async] function is a computation
    in the monad [Async]: it either returns or throws, and it records the
    URLs it requested. *)

From Stdlib Require Import List String Ascii ZArith Bool Lia DecimalString.
Import ListNotations.
Local Open Scope string_scope.
Local Open Scope Z_scope.

(** ** The JavaScript string operations the source uses *)

Module Js.

(** A string is truthy when it is not empty. *)
Definition truthy (s : string) : bool := negb (s =? "")%string.

(** [s.split(sep)[0]] for a one-character separator: the part of [s] before
    the first [sep], all of [s] when there is none. *)
Fixpoint split0 (sep : ascii) (s : string) : string :=
  match s with
  | EmptyString => EmptyString
  | String c r => if Ascii.eqb c sep then EmptyString else String c (split0 sep r)
  end.

(** [s.startsWith(p)] *)
Fixpoint startsWith (s p : string) {struct p} : bool :=
  match p, s with
  | EmptyString, _ => true
  | String _ _, EmptyString => false
  | String b p', String a s' => Ascii.eqb a b && startsWith s' p'
  end.

(** A number in a template string; identifiers are integers, printed
    digit by digit as the program prints them below 2^53. *)
Definition ofNumber (n : Z) : string := NilZero.string_of_int (Z.to_int n).

(** [a || b] on strings *)
Definition orElse (a b : string) : string := if truthy a then a else b.

(** [Array.prototype.sort(cmp)].  The comparator's number is read by its
    sign; the sort is stable.  Written here as the insertion sort that
    puts each element before the first one it does not exceed.  For a
    comparator that is not a consistent order the language leaves the
    result to the engine; what is proved of the sorted dates below assumes
    that they all parse, where the comparator is one. *)
Section Sort.
Context {A : Type} (cmp : A -> A -> Z).

Fixpoint insert (x : A) (l : list A) : list A :=
  match l with
  | [] => [x]
  | y :: r => if cmp x y <=? 0 then x :: y :: r else y :: insert x r
  end.

Fixpoint sort (l : list A) : list A :=
  match l with
  | [] => []
  | x :: r => insert x (sort r)
  end.
End Sort.

End Js.

(** ** Date strings

    [new Date(s).getTime()] is a number of milliseconds since the epoch, or
    NaN.  Engines differ outside the ECMAScript date-time string format, so
    the handler below takes the parser as a parameter [Date_parse]
    ([None] is NaN).  [IsoDate.parse] is the part all engines share: the
    date-only form [YYYY-MM-DD] and the UTC form [YYYY-MM-DDTHH:mm:ss.sssZ],
    both read as UTC; any other string is invalid for it.  It is strict:
    the day must exist in its month and the hour is 00 to 23, so the
    strings engines read beyond that (the hour 24:00:00.000, days past the
    end of a month, other formats) are not among those it reads. *)

Module IsoDate.

Definition digit (c : ascii) : option Z :=
  let n := Z.of_nat (nat_of_ascii c) in
  if (48 <=? n) && (n <=? 57) then Some (n - 48) else None.

Fixpoint digits (acc : Z) (s : string) : option Z :=
  match s with
  | EmptyString => Some acc
  | String c r =>
      match digit c with
      | Some d => digits (10 * acc + d) r
      | None => None
      end
  end.

(** The [len] digits of [s] from position [pos]. *)
Definition field (s : string) (pos len : nat) : option Z :=
  let f := substring pos len s in
  if Nat.eqb (String.length f) len then digits 0 f else None.

Definition charAt (s : string) (pos : nat) (c : ascii) : bool :=
  match get pos s with
  | Some c' => Ascii.eqb c c'
  | None => false
  end.

Definition leap (y : Z) : bool :=
  (y mod 4 =? 0) && (negb (y mod 100 =? 0) || (y mod 400 =? 0)).

Definition daysInMonth (y m : Z) : Z :=
  if m =? 2 then (if leap y then 29 else 28)
  else if (m =? 4) || (m =? 6) || (m =? 9) || (m =? 11) then 30
  else 31.

(** Days from 1970-01-01 to the civil date [y]-[m]-[d]. *)
Definition dayNumber (y m d : Z) : Z :=
  let y' := if m <=? 2 then y - 1 else y in
  let era := y' / 400 in
  let yoe := y' - era * 400 in
  let mp := if m <=? 2 then m + 9 else m - 3 in
  let doy := (153 * mp + 2) / 5 + d - 1 in
  let doe := yoe * 365 + yoe / 4 - yoe / 100 + doy in
  era * 146097 + doe - 719468.

Definition msPerDay : Z := 86400000.

Definition date (s : string) : option Z :=
  match field s 0 4, field s 5 2, field s 8 2 with
  | Some y, Some m, Some d =>
      if charAt s 4 "-" && charAt s 7 "-"
         && (1 <=? m) && (m <=? 12) && (1 <=? d) && (d <=? daysInMonth y m)
      then Some (dayNumber y m d * msPerDay)
      else None
  | _, _, _ => None
  end.

Definition time (s : string) : option Z :=
  match field s 11 2, field s 14 2, field s 17 2, field s 20 3 with
  | Some h, Some mi, Some sec, Some ms =>
      if charAt s 10 "T" && charAt s 13 ":" && charAt s 16 ":"
         && charAt s 19 "." && charAt s 23 "Z"
         && (h <=? 23) && (mi <=? 59) && (sec <=? 59)
      then Some (h * 3600000 + mi * 60000 + sec * 1000 + ms)
      else None
  | _, _, _, _ => None
  end.

Definition parse (s : string) : option Z :=
  if Nat.eqb (String.length s) 10 then date s
  else if Nat.eqb (String.length s) 24 then
    match date s, time s with
    | Some d, Some t => Some (d + t)
    | _, _ => None
    end
  else None.

End IsoDate.

(** One of the forms engines read outside that format: [D MMM YYYY], a day
    of one or two digits, an English month name of three letters in any
    case and a year of four digits, separated by single spaces, as V8 reads
    it in a process whose time zone is UTC.  [LegacyDate.parse] reads the
    shared format first and this form otherwise. *)

Module LegacyDate.

(** [s.split(sep)] for a one-character separator. *)
Fixpoint splitOn (sep : ascii) (s : string) : list string :=
  match s with
  | EmptyString => [EmptyString]
  | String c r =>
      if Ascii.eqb c sep then EmptyString :: splitOn sep r
      else match splitOn sep r with
           | w :: ws => String c w :: ws
           | [] => [String c EmptyString]
           end
  end.

Definition upper (c : ascii) : ascii :=
  let n := nat_of_ascii c in
  if (Nat.leb 97 n && Nat.leb n 122)%bool then ascii_of_nat (n - 32) else c.

Fixpoint upperCase (s : string) : string :=
  match s with
  | EmptyString => EmptyString
  | String c r => String (upper c) (upperCase r)
  end.

Definition monthOf (s : string) : option Z :=
  let m := upperCase s in
  if (m =? "JAN")%string then Some 1
  else if (m =? "FEB")%string then Some 2
  else if (m =? "MAR")%string then Some 3
  else if (m =? "APR")%string then Some 4
  else if (m =? "MAY")%string then Some 5
  else if (m =? "JUN")%string then Some 6
  else if (m =? "JUL")%string then Some 7
  else if (m =? "AUG")%string then Some 8
  else if (m =? "SEP")%string then Some 9
  else if (m =? "OCT")%string then Some 10
  else if (m =? "NOV")%string then Some 11
  else if (m =? "DEC")%string then Some 12
  else None.

Definition number (s : string) (minLen maxLen : nat) : option Z :=
  if (Nat.leb minLen (String.length s) && Nat.leb (String.length s) maxLen)%bool
  then IsoDate.digits 0 s
  else None.

Definition dayMonthYear (s : string) : option Z :=
  match splitOn " " s with
  | [d; m; y] =>
      match number d 1 2, monthOf m, number y 4 4 with
      | Some day, Some month, Some year =>
          if (1 <=? day) && (day <=? IsoDate.daysInMonth year month)
          then Some (IsoDate.dayNumber year month day * IsoDate.msPerDay)
          else None
      | _, _, _ => None
      end
  | _ => None
  end.

Definition parse (s : string) : option Z :=
  match IsoDate.parse s with
  | Some t => Some t
  | None => dayMonthYear s
  end.

End LegacyDate.

(** ** The provider's answers, as the source types them *)

(** [TmdbFindResponse]: [movie_results?: Array<{ id: number }>] *)
Record MovieResult := { id : Z }.
Record TmdbFindResponse := { movie_results : option (list MovieResult) }.

(** [TmdbReleaseDatesResponse]: [results?] is an array of regions, each with
    its [iso_3166_1] code and an optional array [release_dates?] of
    [{ release_date: string; type: number }]. *)
Record Release := { release_date : string; type : Z }.
Record RegionResult := { iso_3166_1 : string; release_dates : option (list Release) }.
Record TmdbReleaseDatesResponse := { results : option (list RegionResult) }.

(** [StreamArgs] of the host: the request's [type] and [id]. *)
Record StreamArgs := { args_type : string; args_id : string }.

(** One display entry of the answer [{ streams: [...] }]. *)
Record Stream := { name : string; title : string; externalUrl : string }.

(** ** Asynchronous computations

    An [async] function either returns a value or throws; [fetch] is the
    only effect, and a computation carries the URLs it requested, in
    order. *)

Inductive Error : Type :=
| NetworkError                 (* [fetch] itself rejects *)
| RequestFailed (status : Z)   (* thrown by [fetchJson] when [!response.ok] *)
| JsonError.                   (* [response.json()] rejects *)

Inductive Completion (A : Type) : Type :=
| Return (a : A)
| Throw (e : Error).
Arguments Return {A} a.
Arguments Throw {A} e.

Definition Async (A : Type) : Type := (Completion A * list string)%type.

Definition ret {A} (a : A) : Async A := (Return a, []).

Definition bind {A B} (m : Async A) (k : A -> Async B) : Async B :=
  match m with
  | (Return a, l) => let (r, l') := k a in (r, (l ++ l')%list)
  | (Throw e, l) => (Throw e, l)
  end.

(** [try { body } catch (error) { handler }] *)
Definition tryCatch {A} (body : Async A) (handler : Error -> Async A) : Async A :=
  match body with
  | (Return a, l) => (Return a, l)
  | (Throw e, l) => let (r, l') := handler e in (r, (l ++ l')%list)
  end.

Notation "x <- m ;; k" := (bind m (fun x => k))
  (at level 61, m at next level, right associativity).

Definition completion {A} (m : Async A) : Completion A := fst m.
Definition requests {A} (m : Async A) : list string := snd m.

(** What [fetch(url)] gives back: [None] when the call itself fails, else a
    response with its status and its body read at the type [T] the caller
    casts it to ([None] when the body cannot be read as JSON). *)
Record HttpResponse (T : Type) := { status : Z; json : option T }.
Arguments status {T} _.
Arguments json {T} _.

Definition Fetch (T : Type) : Type := string -> option (HttpResponse T).

(** [response.ok]: a status from 200 to 299. *)
Definition ok {T} (r : HttpResponse T) : bool :=
  (200 <=? status r) && (status r <=? 299).

(** The provider: its answer to each URL, for the two endpoints. *)
Record Provider := {
  fetchFind : Fetch TmdbFindResponse;
  fetchReleaseDates : Fetch TmdbReleaseDatesResponse
}.

Definition fetchJson {T} (fetch : Fetch T) (url : string) : Async T :=
  (match fetch url with
   | None => Throw NetworkError
   | Some response =>
       if negb (ok response) then Throw (RequestFailed (status response))
       else match json response with
            | Some data => Return data
            | None => Throw JsonError
            end
   end, [url]).

(** ** The add-on *)

Definition TMDB_BASE_URL : string := "https://api.themoviedb.org/3".

Section Addon.

(** [process.env.TMDB_API_KEY], the engine's date parser, the provider and
    the clock read by [Date.now()]. *)
Variable env_TMDB_API_KEY : option string.
Variable Date_parse : string -> option Z.
Variable provider : Provider.
Variable Date_now : Z.

(** [process.env.TMDB_API_KEY || ""] *)
Definition TMDB_API_KEY : string :=
  match env_TMDB_API_KEY with
  | Some k => Js.orElse k ""
  | None => ""
  end.

Definition findUrl (imdbId : string) : string :=
  TMDB_BASE_URL ++ "/find/" ++ imdbId ++ "?api_key=" ++ TMDB_API_KEY
    ++ "&external_source=imdb_id".

Definition releaseDatesUrl (tmdbId : Z) : string :=
  TMDB_BASE_URL ++ "/movie/" ++ Js.ofNumber tmdbId ++ "/release_dates?api_key="
    ++ TMDB_API_KEY.

(** [data.movie_results?.[0]?.id ?? null] *)
Definition firstMovieId (data : TmdbFindResponse) : option Z :=
  match movie_results data with
  | Some (m :: _) => Some (id m)
  | _ => None
  end.

Definition getTmdbIdFromImdb (imdbId : string) : Async (option Z) :=
  data <- fetchJson (fetchFind provider) (findUrl imdbId) ;;
  ret (firstMovieId data).

(** The comparator of the sort: the difference of the two times, NaN when
    either date is invalid; the sort reads NaN as +0. *)
Definition compareDates (a b : string) : Z :=
  match Date_parse a, Date_parse b with
  | Some ta, Some tb => ta - tb
  | _, _ => 0
  end.

Definition getDigitalDates (items : list RegionResult) : list string :=
  map release_date
    (filter (fun release => (type release =? 4) && Js.truthy (release_date release))
       (flat_map (fun result => match release_dates result with
                                | Some l => l
                                | None => []
                                end) items)).

(** The body of [getDigitalReleaseDate] after the fetch. *)
Definition digitalDateOf (data : TmdbReleaseDatesResponse) : option string :=
  let results := match results data with Some l => l | None => [] end in
  let usResult := find (fun result => (iso_3166_1 result =? "US")%string) results in
  let preferred := getDigitalDates (match usResult with
                                    | Some r => [r]
                                    | None => []
                                    end) in
  let fallback := getDigitalDates results in
  let candidates := if (0 <? List.length preferred)%nat then preferred else fallback in
  if (List.length candidates =? 0)%nat then None
  else hd_error (Js.sort compareDates candidates).

Definition getDigitalReleaseDate (tmdbId : Z) : Async (option string) :=
  data <- fetchJson (fetchReleaseDates provider) (releaseDatesUrl tmdbId) ;;
  ret (digitalDateOf data).

(** The display entries of the handler. *)
Definition configurationError : Stream :=
  {| name := "Configuration error";
     title := "TMDB_API_KEY is not set";
     externalUrl := "https://www.themoviedb.org" |}.

Definition noTmdbMatch (imdbId : string) : Stream :=
  {| name := "No TMDB match";
     title := "No TMDB match for " ++ imdbId;
     externalUrl := "https://www.themoviedb.org" |}.

Definition noDigitalDate (tmdbUrl : string) : Stream :=
  {| name := "No digital date";
     title := "No digital release date found";
     externalUrl := tmdbUrl |}.

Definition notYetAvailable (dateOnly tmdbUrl : string) : Stream :=
  {| name := "Not yet available";
     title := "Planned digital release: " ++ dateOnly;
     externalUrl := tmdbUrl |}.

Definition digitalRelease (dateOnly tmdbUrl : string) : Stream :=
  {| name := "Digital release";
     title := "Released " ++ dateOnly;
     externalUrl := tmdbUrl |}.

Definition notAvailableYet (dateOnly tmdbUrl : string) : Stream :=
  {| name := "⏳ Not Available Yet";
     title := "Digital release: " ++ dateOnly ++ " — Check back after that date!";
     externalUrl := tmdbUrl |}.

Definition tmdbError : Stream :=
  {| name := "TMDB error";
     title := "Failed to fetch release data";
     externalUrl := "https://www.themoviedb.org" |}.

(** [!tmdbId] on [number | null]: null and 0 are falsy. *)
Definition truthyId (tmdbId : option Z) : option Z :=
  match tmdbId with
  | Some n => if n =? 0 then None else Some n
  | None => None
  end.

(** [!plannedDate] on [string | null]: null and the empty string are falsy. *)
Definition truthyDate (plannedDate : option string) : option string :=
  match plannedDate with
  | Some d => if Js.truthy d then Some d else None
  | None => None
  end.

Definition tmdbUrlOf (tmdbId : Z) : string :=
  "https://www.themoviedb.org/movie/" ++ Js.ofNumber tmdbId.

(** [plannedDate.split("T")[0] || plannedDate] *)
Definition dateOnlyOf (plannedDate : string) : string :=
  Js.orElse (Js.split0 "T" plannedDate) plannedDate.

(** Lines 120-154: the entry for a date that was found. *)
Definition entryForDate (tmdbUrl plannedDate : string) : Stream :=
  let dateOnly := dateOnlyOf plannedDate in
  match Date_parse plannedDate with
  | None => notYetAvailable dateOnly tmdbUrl
  | Some releaseTime =>
      if releaseTime <=? Date_now then digitalRelease dateOnly tmdbUrl
      else notAvailableYet dateOnly tmdbUrl
  end.

(** The body of the [try] block. *)
Definition lookup (imdbId : string) : Async (list Stream) :=
  tmdbId <- getTmdbIdFromImdb imdbId ;;
  match truthyId tmdbId with
  | None => ret [noTmdbMatch imdbId]
  | Some tmdbId =>
      let tmdbUrl := tmdbUrlOf tmdbId in
      plannedDate <- getDigitalReleaseDate tmdbId ;;
      match truthyDate plannedDate with
      | None => ret [noDigitalDate tmdbUrl]
      | Some plannedDate => ret [entryForDate tmdbUrl plannedDate]
      end
  end.

(** The function given to [builder.defineStreamHandler]; its value is the
    [streams] array of the answer. *)
Definition streamHandler (args : StreamArgs) : Async (list Stream) :=
  if negb (Js.truthy TMDB_API_KEY) then ret [configurationError]
  else if negb (args_type args =? "movie")%string then ret []
  else
    let imdbId := Js.split0 ":" (args_id args) in
    if negb (Js.truthy imdbId) || negb (Js.startsWith imdbId "tt") then ret []
    else tryCatch (lookup imdbId) (fun _ => ret [tmdbError]).

End Addon.

(** ** The resolver as the specification words it

    Release events are (region, date, type) triples; the digital ones with a
    date are kept; the preferred set is those of region US, the other set is
    all of them; the preferred set is used unless it is empty, and the
    earliest date of the used set is the answer.  This is compared with
    [digitalDateOf] below. *)

Definition releasesOf (result : RegionResult) : list Release :=
  match release_dates result with
  | Some l => l
  | None => []
  end.

Definition resultsOf (data : TmdbReleaseDatesResponse) : list RegionResult :=
  match results data with
  | Some l => l
  | None => []
  end.

Definition releaseEvents (data : TmdbReleaseDatesResponse) : list (string * Release) :=
  flat_map (fun result => map (pair (iso_3166_1 result)) (releasesOf result))
    (resultsOf data).

Definition spec_digitalDateOf (Date_parse : string -> option Z)
    (data : TmdbReleaseDatesResponse) : option string :=
  let digital :=
    filter (fun e => (type (snd e) =? 4) && Js.truthy (release_date (snd e)))
      (releaseEvents data) in
  let preferred := filter (fun e => (fst e =? "US")%string) digital in
  let chosen := match preferred with [] => digital | _ => preferred end in
  hd_error (Js.sort (compareDates Date_parse) (map (fun e => release_date (snd e)) chosen)).

(** The candidates [getDigitalReleaseDate] sorts: the digital dates of the
    region [find] returns when there are any, else those of all regions. *)
Definition candidatesOf (data : TmdbReleaseDatesResponse) : list string :=
  let preferred :=
    getDigitalDates
      (match find (fun result => (iso_3166_1 result =? "US")%string) (resultsOf data) with
       | Some r => [r]
       | None => []
       end) in
  match preferred with
  | [] => getDigitalDates (resultsOf data)
  | _ => preferred
  end.

(** The time of a date that parses. *)
Definition timeOf (Date_parse : string -> option Z) (d : string) : Z :=
  match Date_parse d with
  | Some t => t
  | None => 0
  end.

(** The head of a list is no later than the rest. *)
Definition headLeast (Date_parse : string -> option Z) (l : list string) : Prop :=
  match l with
  | [] => True
  | h :: r => forall d, In d r -> timeOf Date_parse h <= timeOf Date_parse d
  end.

(** A digital release with a date. *)
Definition isDigital (release : Release) : Prop :=
  type release = 4 /\ release_date release <> "".

(** [d] is the date of a digital release of one of the regions [items]. *)
Definition digitalDateIn (items : list RegionResult) (d : string) : Prop :=
  exists result release,
    In result items /\ In release (releasesOf result) /\
    isDigital release /\ release_date release = d.

(** [result] is the first region of [items] tagged US. *)
Definition firstUS (items : list RegionResult) (result : RegionResult) : Prop :=
  exists before after,
    items = (before ++ result :: after)%list /\
    iso_3166_1 result = "US" /\
    forall r, In r before -> iso_3166_1 r <> "US".

(** [d] is a date of [l] that parses, and no date of [l] that parses is
    earlier. *)
Definition earliestOf (Date_parse : string -> option Z) (l : list string) (d : string) : Prop :=
  In d l /\
  exists t, Date_parse d = Some t /\
    forall d' t', In d' l -> Date_parse d' = Some t' -> t <= t'.

Definition allParse (Date_parse : string -> option Z) (l : list string) : Prop :=
  forall d, In d l -> exists t, Date_parse d = Some t.

(** A parser that agrees with the shared format where that is defined. *)
Definition readsIso (Date_parse : string -> option Z) : Prop :=
  forall s t, IsoDate.parse s = Some t -> Date_parse s = Some t.

(** A provider answer that makes [fetchJson] throw. *)
Inductive Fails {T : Type} : option (HttpResponse T) -> Prop :=
| Fails_network : Fails None
| Fails_status (r : HttpResponse T) : ok r = false -> Fails (Some r)
| Fails_body (r : HttpResponse T) : json r = None -> Fails (Some r).

(** ** Sample data *)

Module Sample.

Definition digital (d : string) : Release := {| release_date := d; type := 4 |}.
Definition theatrical (d : string) : Release := {| release_date := d; type := 3 |}.

Definition region (code : string) (l : list Release) : RegionResult :=
  {| iso_3166_1 := code; release_dates := Some l |}.

(** US digital dates 2024-06-01 and 2024-05-01, another region's 2024-04-01. *)
Definition usAndOthers : TmdbReleaseDatesResponse :=
  {| results := Some
       [ region "GB" [digital "2024-04-01"];
         region "US" [theatrical "2024-03-01"; digital "2024-06-01"; digital "2024-05-01"] ] |}.

(** No US region; another region's digital date 2024-07-15. *)
Definition othersOnly : TmdbReleaseDatesResponse :=
  {| results := Some
       [ region "FR" [theatrical "2024-07-01"];
         region "DE" [digital "2024-07-15"] ] |}.

(** Two regions tagged US, the first without a digital release. *)
Definition twoUS : TmdbReleaseDatesResponse :=
  {| results := Some
       [ region "US" [theatrical "2024-03-01"];
         region "US" [digital "2024-06-01"];
         region "GB" [digital "2024-04-01"] ] |}.

Definition found (tmdbId : Z) : TmdbFindResponse :=
  {| movie_results := Some [ {| id := tmdbId |} ] |}.

Definition answer {T} (code : Z) (body : option T) : option (HttpResponse T) :=
  Some {| status := code; json := body |}.

(** A provider that knows the film as 603 and gives [body] with status
    [code] for its release dates. *)
Definition providerWith (code : Z) (body : option TmdbReleaseDatesResponse) : Provider :=
  {| fetchFind := fun _ => answer 200 (Some (found 603));
     fetchReleaseDates := fun _ => answer code body |}.

(** A provider that finds nothing. *)
Definition providerNoMatch : Provider :=
  {| fetchFind := fun _ => answer 200 (Some {| movie_results := Some [] |});
     fetchReleaseDates := fun _ => None |}.

Definition oneDate (d : string) : TmdbReleaseDatesResponse :=
  {| results := Some [ region "US" [digital d] ] |}.

Definition request (i : string) : StreamArgs :=
  {| args_type := "movie"; args_id := i |}.

(** 2024-05-15T12:00:00.000Z *)
Definition now : Z := 1715774400000.

End Sample.

(** ** The manifest

    The object given to [addonBuilder]: what the add-on tells the host it
    serves.  No catalog is declared. *)

Record Manifest := {
  manifest_id : string;
  manifest_name : string;
  version : string;
  description : string;
  catalogs : list string;
  resources : list string;
  types : list string;
  idPrefixes : list string
}.

Definition manifest : Manifest :=
  {| manifest_id := "com.availabilityio.tmdb-digital-release";
     manifest_name := "Availabilityio Digital Release Streams";
     version := "1.0.0";
     description := "Shows a stream card once the TMDB digital release date has passed.";
     catalogs := [];
     resources := ["stream"];
     types := ["movie"];
     idPrefixes := ["tt"] |}.

(** A request the manifest announces: its type is one of [types] and its
    identifier starts with one of [idPrefixes]. *)
Definition announced (m : Manifest) (args : StreamArgs) : Prop :=
  In (args_type args) (types m) /\
  exists prefix, In prefix (idPrefixes m) /\ Js.startsWith (args_id args) prefix = true.

(** The names of the entries that carry the generic landing link, and of
    those that carry the link to the film's page. *)
Definition landingNames : list string :=
  ["Configuration error"; "No TMDB match"; "TMDB error"].

Definition pageNames : list string :=
  ["No digital date"; "Not yet available"; "Digital release"; "⏳ Not Available Yet"].

(** [d] is the first date of [l] with the earliest time: the dates before it
    are strictly later, the dates after it are not earlier. *)
Definition firstEarliestOf (Date_parse : string -> option Z) (l : list string) (d : string) : Prop :=
  exists before after,
    l = (before ++ d :: after)%list /\
    (forall x, In x before -> timeOf Date_parse d < timeOf Date_parse x) /\
    (forall x, In x after -> timeOf Date_parse d <= timeOf Date_parse x).

(** [c] does not occur in [s]. *)
Fixpoint lacks (c : ascii) (s : string) : bool :=
  match s with
  | EmptyString => true
  | String a r => negb (Ascii.eqb a c) && lacks c r
  end.

(** * Properties *)

Example iso_epoch : IsoDate.parse "1970-01-01" = Some 0.
Proof. reflexivity. Qed.

Example iso_2024_05_01 :
  IsoDate.parse "2024-05-01T00:00:00.000Z" = Some 1714521600000.
Proof. vm_compute. reflexivity. Qed.

Example iso_now : IsoDate.parse "2024-05-15T12:00:00.000Z" = Some Sample.now.
Proof. vm_compute. reflexivity. Qed.

Example iso_leap_day : IsoDate.parse "2000-03-01" = Some 951868800000.
Proof. vm_compute. reflexivity. Qed.

Example iso_before_epoch : IsoDate.parse "1969-12-31" = Some (-86400000).
Proof. vm_compute. reflexivity. Qed.

Example iso_last_ms_2024 :
  IsoDate.parse "2024-12-31T23:59:59.999Z" = Some 1735689599999.
Proof. vm_compute. reflexivity. Qed.

Example iso_no_feb_29 : IsoDate.parse "2023-02-29" = None.
Proof. vm_compute. reflexivity. Qed.

Example legacy_1_oct_2023 :
  LegacyDate.parse "1 OCT 2023" = IsoDate.parse "2023-10-01"
  /\ LegacyDate.parse "1 OCT 2023" = Some 1696118400000
  /\ LegacyDate.parse "1 Oct 2024" = Some 1727740800000.
Proof. vm_compute. repeat split. Qed.

Example legacy_keeps_iso :
  LegacyDate.parse "2024-05-01T00:00:00.000Z" = Some 1714521600000
  /\ LegacyDate.parse "2024-13-01T00:00:00.000Z" = None.
Proof. vm_compute. split; reflexivity. Qed.

Example iso_month_13 : IsoDate.parse "2024-13-01T00:00:00.000Z" = None.
Proof. vm_compute. reflexivity. Qed.

Example ofNumber_603 : Js.ofNumber 603 = "603".
Proof. reflexivity. Qed.

Example split0_suffixed : Js.split0 ":" "tt1234:1:2" = "tt1234".
Proof. reflexivity. Qed.

Example sample_usAndOthers :
  digitalDateOf IsoDate.parse Sample.usAndOthers = Some "2024-05-01".
Proof. vm_compute. reflexivity. Qed.

(** A date that does not parse compares equal to both its neighbours, and
    the sort then leaves the later date at the head. *)
Example sample_unparseable_between :
  digitalDateOf IsoDate.parse
    {| results := Some [ Sample.region "US"
                           [ Sample.digital "2024-06-01"; Sample.digital "2024-13-01";
                             Sample.digital "2024-04-01" ] ] |}
  = Some "2024-06-01".
Proof. vm_compute. reflexivity. Qed.

Example sample_othersOnly :
  digitalDateOf IsoDate.parse Sample.othersOnly = Some "2024-07-15".
Proof. vm_compute. reflexivity. Qed.

Example sample_handler :
  streamHandler (Some "k") IsoDate.parse
    (Sample.providerWith 200 (Some (Sample.oneDate "2024-13-01T00:00:00.000Z")))
    Sample.now (Sample.request "tt0133093")
  = (Return [notYetAvailable "2024-13-01" "https://www.themoviedb.org/movie/603"],
     ["https://api.themoviedb.org/3/find/tt0133093?api_key=k&external_source=imdb_id";
      "https://api.themoviedb.org/3/movie/603/release_dates?api_key=k"]).
Proof. vm_compute. reflexivity. Qed.

(** ** Strings *)

Lemma truthy_nonempty (s : string) : Js.truthy s = true <-> s <> "".
Proof.
  unfold Js.truthy. destruct (String.eqb_spec s ""); simpl; split; congruence.
Qed.

Lemma truthy_empty (s : string) : Js.truthy s = false <-> s = "".
Proof.
  unfold Js.truthy. destruct (String.eqb_spec s ""); simpl; split; congruence.
Qed.

(** The [tt] test sees the same thing on an identifier and on its part
    before the first colon. *)
Lemma startsWith_cons (a b : ascii) (s p : string) :
  Js.startsWith (String a s) (String b p) = Ascii.eqb a b && Js.startsWith s p.
Proof. reflexivity. Qed.

Lemma split0_cons (sep c : ascii) (s : string) :
  Js.split0 sep (String c s) =
  if Ascii.eqb c sep then EmptyString else String c (Js.split0 sep s).
Proof. reflexivity. Qed.

Lemma startsWith_tt_split0 (s : string) :
  Js.startsWith (Js.split0 ":" s) "tt" = Js.startsWith s "tt".
Proof.
  destruct s as [|c1 s]; [reflexivity|].
  rewrite split0_cons, startsWith_cons.
  destruct (Ascii.eqb_spec c1 ":") as [->|H1]; [reflexivity|].
  rewrite startsWith_cons. f_equal.
  destruct s as [|c2 s]; [reflexivity|].
  rewrite split0_cons, startsWith_cons.
  destruct (Ascii.eqb_spec c2 ":") as [->|H2]; [reflexivity|].
  now rewrite startsWith_cons.
Qed.

Lemma startsWith_tt_truthy (s : string) :
  Js.startsWith s "tt" = true -> Js.truthy s = true.
Proof.
  destruct s; [discriminate | reflexivity].
Qed.

Lemma TMDB_API_KEY_missing (env : option string) :
  TMDB_API_KEY env = "" <-> env = None \/ env = Some "".
Proof.
  unfold TMDB_API_KEY, Js.orElse. split.
  - destruct env as [k|]; [|now left].
    destruct (Js.truthy k) eqn:E; intros H.
    + subst k. discriminate.
    + right. f_equal. now apply truthy_empty.
  - intros [->| ->]; reflexivity.
Qed.

(** ** Computations *)

Lemma completion_ret {A} (a : A) : completion (ret a) = Return a.
Proof. reflexivity. Qed.

Lemma requests_ret {A} (a : A) : requests (ret a) = [].
Proof. reflexivity. Qed.

Lemma completion_bind {A B} (m : Async A) (k : A -> Async B) :
  completion (bind m k) =
  match completion m with
  | Return a => completion (k a)
  | Throw e => Throw e
  end.
Proof.
  destruct m as [[a|e] l]; [|reflexivity].
  unfold bind, completion; simpl. now destruct (k a).
Qed.

Lemma requests_bind {A B} (m : Async A) (k : A -> Async B) :
  requests (bind m k) =
  (requests m ++ match completion m with
                 | Return a => requests (k a)
                 | Throw _ => []
                 end)%list.
Proof.
  destruct m as [[a|e] l]; unfold bind, requests, completion; simpl.
  - now destruct (k a).
  - now rewrite app_nil_r.
Qed.

Lemma completion_tryCatch {A} (body : Async A) (handler : Error -> Async A) :
  completion (tryCatch body handler) =
  match completion body with
  | Return a => Return a
  | Throw e => completion (handler e)
  end.
Proof.
  destruct body as [[a|e] l]; [reflexivity|].
  unfold tryCatch, completion; simpl. now destruct (handler e).
Qed.

Lemma requests_tryCatch_ret {A} (body : Async A) (a : A) :
  requests (tryCatch body (fun _ => ret a)) = requests body.
Proof.
  destruct body as [[x|e] l]; [reflexivity|].
  unfold tryCatch, requests, ret. simpl. now rewrite app_nil_r.
Qed.

(** ** [fetchJson] *)

Lemma fetchJson_requests {T} (fetch : Fetch T) (url : string) :
  requests (fetchJson fetch url) = [url].
Proof. reflexivity. Qed.

Lemma fetchJson_returns {T} (fetch : Fetch T) (url : string) r data :
  fetch url = Some r -> ok r = true -> json r = Some data ->
  fetchJson fetch url = (Return data, [url]).
Proof.
  intros Hf Hok Hj. unfold fetchJson. now rewrite Hf, Hok, Hj.
Qed.

Lemma fetchJson_throws {T} (fetch : Fetch T) (url : string) :
  Fails (fetch url) -> exists e, fetchJson fetch url = (Throw e, [url]).
Proof.
  unfold fetchJson. intros H. inversion H as [|r Hok Hr|r Hj Hr].
  - now exists NetworkError.
  - rewrite Hok. now exists (RequestFailed (status r)).
  - destruct (ok r); simpl; [rewrite Hj|]; eauto.
Qed.

Lemma fetchJson_cases {T} (fetch : Fetch T) (url : string) :
  Fails (fetch url) \/
  exists r data, fetch url = Some r /\ ok r = true /\ json r = Some data.
Proof.
  destruct (fetch url) as [r|] eqn:Hf; [|left; constructor].
  destruct (ok r) eqn:Hok; [|left; now constructor].
  destruct (json r) as [data|] eqn:Hj; [|left; now constructor 3].
  right. now exists r, data.
Qed.

(** ** The handler, stage by stage *)

Section Stages.

Variable env : option string.
Variable Date_parse : string -> option Z.
Variable provider : Provider.
Variable now : Z.

Lemma handler_unconfigured args :
  Js.truthy (TMDB_API_KEY env) = false ->
  streamHandler env Date_parse provider now args = ret [configurationError].
Proof.
  intros H. unfold streamHandler. now rewrite H.
Qed.

Lemma handler_rejects args :
  Js.truthy (TMDB_API_KEY env) = true ->
  (args_type args =? "movie")%string && Js.startsWith (args_id args) "tt" = false ->
  streamHandler env Date_parse provider now args = ret [].
Proof.
  intros Hk H. unfold streamHandler. rewrite Hk. cbn [negb].
  destruct (args_type args =? "movie")%string; cbn [negb andb] in *; [|reflexivity].
  rewrite startsWith_tt_split0, H. cbn [negb]. now rewrite orb_true_r.
Qed.

Lemma handler_looks_up args :
  Js.truthy (TMDB_API_KEY env) = true ->
  args_type args = "movie" ->
  Js.startsWith (args_id args) "tt" = true ->
  streamHandler env Date_parse provider now args =
    tryCatch (lookup env Date_parse provider now (Js.split0 ":" (args_id args)))
      (fun _ => ret [tmdbError]).
Proof.
  intros Hk Ht Hp. unfold streamHandler.
  rewrite Hk, Ht, String.eqb_refl. cbn [negb].
  rewrite <- startsWith_tt_split0 in Hp.
  now rewrite Hp, (startsWith_tt_truthy _ Hp).
Qed.

(** The two lookups. *)
Lemma completion_getTmdbIdFromImdb imdbId :
  completion (getTmdbIdFromImdb env provider imdbId) =
  match completion (fetchJson (fetchFind provider) (findUrl env imdbId)) with
  | Return data => Return (firstMovieId data)
  | Throw e => Throw e
  end.
Proof.
  unfold getTmdbIdFromImdb. now rewrite completion_bind.
Qed.

Lemma completion_getDigitalReleaseDate tmdbId :
  completion (getDigitalReleaseDate env Date_parse provider tmdbId) =
  match completion (fetchJson (fetchReleaseDates provider) (releaseDatesUrl env tmdbId)) with
  | Return data => Return (digitalDateOf Date_parse data)
  | Throw e => Throw e
  end.
Proof.
  unfold getDigitalReleaseDate. now rewrite completion_bind.
Qed.

(** The [try] block, read off its two lookups. *)
Lemma completion_lookup imdbId :
  completion (lookup env Date_parse provider now imdbId) =
  match completion (getTmdbIdFromImdb env provider imdbId) with
  | Throw e => Throw e
  | Return tmdbId =>
      match truthyId tmdbId with
      | None => Return [noTmdbMatch imdbId]
      | Some tmdbId =>
          match completion (getDigitalReleaseDate env Date_parse provider tmdbId) with
          | Throw e => Throw e
          | Return plannedDate =>
              match truthyDate plannedDate with
              | None => Return [noDigitalDate (tmdbUrlOf tmdbId)]
              | Some plannedDate =>
                  Return [entryForDate Date_parse now (tmdbUrlOf tmdbId) plannedDate]
              end
          end
      end
  end.
Proof.
  unfold lookup. rewrite completion_bind.
  destruct (completion (getTmdbIdFromImdb env provider imdbId)) as [tmdbId|e];
    [|reflexivity].
  destruct (truthyId tmdbId) as [n|]; [|reflexivity].
  rewrite completion_bind.
  destruct (completion (getDigitalReleaseDate env Date_parse provider n)) as [d|e];
    [|reflexivity].
  now destruct (truthyDate d).
Qed.

(** The [try] block gives one entry or throws. *)
Lemma lookup_one_or_throw imdbId :
  (exists entry, completion (lookup env Date_parse provider now imdbId) = Return [entry])
  \/ exists e, completion (lookup env Date_parse provider now imdbId) = Throw e.
Proof.
  rewrite completion_lookup.
  destruct (completion (getTmdbIdFromImdb env provider imdbId)) as [tmdbId|e]; eauto.
  destruct (truthyId tmdbId) as [n|]; eauto.
  destruct (completion (getDigitalReleaseDate env Date_parse provider n)) as [d|e]; eauto.
  destruct (truthyDate d); eauto.
Qed.

Lemma tryCatch_one_entry (body : Async (list Stream)) :
  ((exists entry, completion body = Return [entry]) \/ exists e, completion body = Throw e) ->
  exists entry, completion (tryCatch body (fun _ => ret [tmdbError])) = Return [entry].
Proof.
  rewrite completion_tryCatch.
  intros [[entry ->]|[e ->]]; [eauto | now exists tmdbError].
Qed.

End Stages.

(** ** The sort *)

Section SortFacts.

Variable Date_parse : string -> option Z.

Lemma insert_In (x y : string) (l : list string) :
  In y (Js.insert (compareDates Date_parse) x l) <-> x = y \/ In y l.
Proof.
  induction l as [|z l IH]; simpl; [tauto|].
  destruct (compareDates Date_parse x z <=? 0); simpl; [tauto|].
  rewrite IH. tauto.
Qed.

Lemma sort_In (y : string) (l : list string) :
  In y (Js.sort (compareDates Date_parse) l) <-> In y l.
Proof.
  induction l as [|x l IH]; simpl; [tauto|].
  rewrite insert_In, IH. tauto.
Qed.

Lemma sort_nil (l : list string) : Js.sort (compareDates Date_parse) l = [] <-> l = [].
Proof.
  split; [|now intros ->].
  destruct l as [|x l]; [reflexivity|]. intros H.
  assert (In x (Js.sort (compareDates Date_parse) (x :: l))) as Hin by (apply sort_In; now left).
  rewrite H in Hin. destruct Hin.
Qed.

Lemma compareDates_time (a b : string) :
  (exists t, Date_parse a = Some t) -> (exists t, Date_parse b = Some t) ->
  compareDates Date_parse a b = timeOf Date_parse a - timeOf Date_parse b.
Proof.
  intros [ta Ha] [tb Hb]. unfold compareDates, timeOf.
  now rewrite Ha, Hb.
Qed.

Lemma insert_headLeast (x : string) (l : list string) :
  allParse Date_parse (x :: l) ->
  headLeast Date_parse l -> headLeast Date_parse (Js.insert (compareDates Date_parse) x l).
Proof.
  intros Hp Hl. destruct l as [|y r]; simpl; [now intros d []|].
  assert (compareDates Date_parse x y = timeOf Date_parse x - timeOf Date_parse y) as Hc
    by (apply compareDates_time; apply Hp; simpl; auto).
  destruct (Z.leb_spec (compareDates Date_parse x y) 0) as [Hle|Hgt]; simpl in *.
  - intros d [<-|Hd]; [lia|]. specialize (Hl d Hd). lia.
  - intros d Hd. apply insert_In in Hd. destruct Hd as [<-|Hd]; [lia|].
    now apply Hl.
Qed.

Lemma sort_headLeast (l : list string) :
  allParse Date_parse l -> headLeast Date_parse (Js.sort (compareDates Date_parse) l).
Proof.
  induction l as [|x l IH]; intros Hp; simpl; [exact I|].
  apply insert_headLeast.
  - intros d [<-|Hd]; [apply Hp; now left|].
    rewrite sort_In in Hd. apply Hp. now right.
  - apply IH. intros d Hd. apply Hp. now right.
Qed.

Lemma sort_head_earliest (l : list string) (d : string) :
  allParse Date_parse l ->
  hd_error (Js.sort (compareDates Date_parse) l) = Some d ->
  earliestOf Date_parse l d.
Proof.
  intros Hp Hd.
  pose proof (sort_headLeast l Hp) as Hh.
  destruct (Js.sort (compareDates Date_parse) l) as [|h r] eqn:E; [discriminate|].
  injection Hd as ->.
  assert (In d l) as Hin by (rewrite <- sort_In, E; now left).
  split; [exact Hin|].
  destruct (Hp d Hin) as [t Ht]. exists t. split; [exact Ht|].
  intros d' t' Hin' Ht'.
  rewrite <- sort_In in Hin'. rewrite E in Hin'.
  destruct Hin' as [<-|Hr]; [rewrite Ht in Ht'; injection Ht' as <-; lia|].
  specialize (Hh d' Hr). unfold timeOf in Hh.
  rewrite Ht, Ht' in Hh. exact Hh.
Qed.

End SortFacts.

(** ** The release-date resolver *)

Lemma getDigitalDates_In (items : list RegionResult) (d : string) :
  In d (getDigitalDates items) <-> digitalDateIn items d.
Proof.
  unfold getDigitalDates, digitalDateIn, isDigital. rewrite in_map_iff. split.
  - intros [release [Hd Hf]]. apply filter_In in Hf. destruct Hf as [Hin Hb].
    apply in_flat_map in Hin. destruct Hin as [result [Hr Hrel]].
    apply andb_true_iff in Hb. destruct Hb as [Ht Hn].
    exists result, release. repeat split; auto.
    + now apply Z.eqb_eq.
    + now apply truthy_nonempty.
  - intros [result [release [Hr [Hrel [[Ht Hn] Hd]]]]].
    exists release. split; [exact Hd|]. apply filter_In. split.
    + apply in_flat_map. now exists result.
    + apply andb_true_iff. split; [now apply Z.eqb_eq | now apply truthy_nonempty].
Qed.

Lemma getDigitalDates_truthy (items : list RegionResult) (d : string) :
  In d (getDigitalDates items) -> Js.truthy d = true.
Proof.
  intros H. apply getDigitalDates_In in H.
  destruct H as [_ [release [_ [_ [[_ Hn] <-]]]]]. now apply truthy_nonempty.
Qed.

Lemma find_firstUS (items : list RegionResult) (us : RegionResult) :
  firstUS items us ->
  find (fun result => (iso_3166_1 result =? "US")%string) items = Some us.
Proof.
  intros [before [after [-> [Hus Hb]]]].
  induction before as [|r before IH]; simpl.
  - now rewrite Hus.
  - destruct (String.eqb_spec (iso_3166_1 r) "US") as [E|_].
    + exfalso. apply (Hb r); [now left | exact E].
    + apply IH. intros r' Hr'. apply Hb. now right.
Qed.

Lemma find_noUS (items : list RegionResult) :
  (forall r, In r items -> iso_3166_1 r <> "US") ->
  find (fun result => (iso_3166_1 result =? "US")%string) items = None.
Proof.
  intros H. induction items as [|r items IH]; simpl; [reflexivity|].
  destruct (String.eqb_spec (iso_3166_1 r) "US") as [E|_].
  - exfalso. apply (H r); [now left | exact E].
  - apply IH. intros r' Hr'. apply H. now right.
Qed.

Lemma firstUS_or_none (items : list RegionResult) :
  (exists us, firstUS items us) \/ (forall r, In r items -> iso_3166_1 r <> "US").
Proof.
  induction items as [|r items IH]; [right; now intros r []|].
  destruct (String.eqb_spec (iso_3166_1 r) "US") as [E|N].
  - left. exists r, [], items. split; [reflexivity|]. split; [exact E|]. now intros r' [].
  - destruct IH as [[us [before [after [-> [Hus Hb]]]]]|Hno].
    + left. exists us, (r :: before), after. split; [reflexivity|]. split; [exact Hus|].
      intros r' [<-|Hr']; [exact N | now apply Hb].
    + right. intros r' [<-|Hr']; [exact N | now apply Hno].
Qed.

Lemma digitalDateOf_candidates (Date_parse : string -> option Z) data :
  digitalDateOf Date_parse data =
  hd_error (Js.sort (compareDates Date_parse) (candidatesOf data)).
Proof.
  unfold digitalDateOf, candidatesOf, resultsOf.
  set (items := match results data with Some l => l | None => [] end).
  destruct (getDigitalDates
              match find (fun result => (iso_3166_1 result =? "US")%string) items with
              | Some r => [r]
              | None => []
              end) as [|d preferred]; simpl.
  - now destruct (getDigitalDates items).
  - reflexivity.
Qed.

Lemma candidatesOf_sub (data : TmdbReleaseDatesResponse) (d : string) :
  In d (candidatesOf data) -> In d (getDigitalDates (resultsOf data)).
Proof.
  unfold candidatesOf.
  destruct (find _ (resultsOf data)) as [us|] eqn:Hf; simpl.
  2: { now destruct (getDigitalDates []). }
  destruct (getDigitalDates [us]) as [|x l] eqn:E; [tauto|].
  rewrite <- E. intros H. apply getDigitalDates_In in H. apply getDigitalDates_In.
  destruct H as [result [release [[<-|[]] H]]].
  exists us, release. split; [|exact H]. now apply find_some in Hf.
Qed.

Lemma digitalDateOf_truthy (Date_parse : string -> option Z) data d :
  digitalDateOf Date_parse data = Some d -> Js.truthy d = true.
Proof.
  rewrite digitalDateOf_candidates. intros H.
  apply (getDigitalDates_truthy (resultsOf data)), candidatesOf_sub.
  apply (sort_In Date_parse).
  destruct (Js.sort (compareDates Date_parse) (candidatesOf data)); [discriminate|].
  injection H as ->. now left.
Qed.

Lemma sort_two (Date_parse : string -> option Z) (a b : string) (ta tb : Z) :
  Date_parse a = Some ta -> Date_parse b = Some tb -> ta < tb ->
  hd_error (Js.sort (compareDates Date_parse) [a; b]) = Some a /\
  hd_error (Js.sort (compareDates Date_parse) [b; a]) = Some a.
Proof.
  intros Ha Hb Hlt. simpl. unfold compareDates. rewrite Ha, Hb.
  destruct (Z.leb_spec (ta - tb) 0); [|lia].
  destruct (Z.leb_spec (tb - ta) 0); [lia|]. now split.
Qed.

(** C1, as stated, fails: with two regions tagged US, the first of them
    without a digital release, the US digital date 2024-06-01 makes the
    preferred set of the specification non-empty, so its answer is
    2024-06-01; [getDigitalReleaseDate] looks only at the first US region,
    falls back to all regions and answers 2024-04-01. *)
Lemma C1_counterexample_second_US_region :
  In ("US", Sample.digital "2024-06-01") (releaseEvents Sample.twoUS)
  /\ spec_digitalDateOf IsoDate.parse Sample.twoUS = Some "2024-06-01"
  /\ digitalDateOf IsoDate.parse Sample.twoUS = Some "2024-04-01"
  /\ digitalDateOf IsoDate.parse Sample.twoUS <> spec_digitalDateOf IsoDate.parse Sample.twoUS.
Proof.
  split; [|split; [|split]].
  - simpl. auto.
  - vm_compute. reflexivity.
  - vm_compute. reflexivity.
  - vm_compute. discriminate.
Qed.

(** C1 (amended): the release-date resolver considers only the releases of
    type 4 with a non-empty date.  Its preferred set holds those of the
    FIRST region tagged US (empty when no region is), its unrestricted set
    those of all regions; the chosen set is the preferred one unless that is
    empty.  The answer is absent exactly when both sets are empty; otherwise
    it is a date of the chosen set, and when all dates of the chosen set
    parse it is the earliest of them.  With US digital dates 2024-05-01 and
    2024-06-01 the answer is 2024-05-01 whatever the other regions hold, and
    with no US region and one digital date 2024-07-15 it is 2024-07-15. *)
Theorem C1_resolver_earliest_of_chosen_set
    (Date_parse : string -> option Z) (data : TmdbReleaseDatesResponse) :
  let items := resultsOf data in
  let unrestricted := getDigitalDates items in
  let answer := digitalDateOf Date_parse data in
  exists preferred chosen : list string,
    (forall l d, In d (getDigitalDates l) <-> digitalDateIn l d) /\
    ((exists us, firstUS items us) \/ (forall r, In r items -> iso_3166_1 r <> "US")) /\
    (forall us, firstUS items us -> preferred = getDigitalDates [us]) /\
    ((forall r, In r items -> iso_3166_1 r <> "US") -> preferred = []) /\
    chosen = match preferred with [] => unrestricted | _ => preferred end /\
    (answer = None <-> preferred = [] /\ unrestricted = []) /\
    (forall d, answer = Some d -> In d chosen) /\
    (allParse Date_parse chosen ->
     forall d, answer = Some d -> earliestOf Date_parse chosen d) /\
    (readsIso Date_parse ->
     preferred = ["2024-05-01"; "2024-06-01"] \/ preferred = ["2024-06-01"; "2024-05-01"] ->
     answer = Some "2024-05-01") /\
    (preferred = [] -> unrestricted = ["2024-07-15"] -> answer = Some "2024-07-15").
Proof.
  intros items unrestricted answer.
  set (usResult := find (fun result => (iso_3166_1 result =? "US")%string) items).
  set (preferred := getDigitalDates match usResult with Some r => [r] | None => [] end).
  exists preferred, (candidatesOf data).
  assert (answer = hd_error (Js.sort (compareDates Date_parse) (candidatesOf data)))
    as Hanswer by apply digitalDateOf_candidates.
  assert (candidatesOf data = match preferred with [] => unrestricted | _ => preferred end)
    as Hchosen by reflexivity.
  split; [exact getDigitalDates_In|].
  split; [apply firstUS_or_none|].
  split.
  { intros us Hus. unfold preferred, usResult. now rewrite (find_firstUS items us Hus). }
  split.
  { intros Hno. unfold preferred, usResult. now rewrite (find_noUS items Hno). }
  split; [exact Hchosen|].
  split.
  { rewrite Hanswer. split.
    - intros H.
      assert (candidatesOf data = []) as Hnil.
      { apply (sort_nil Date_parse).
        now destruct (Js.sort (compareDates Date_parse) (candidatesOf data)). }
      rewrite Hchosen in Hnil. destruct preferred; [now split | discriminate].
    - intros [Hp Hu]. rewrite Hchosen, Hp, Hu. reflexivity. }
  split.
  { intros d Hd. rewrite Hanswer in Hd. apply (sort_In Date_parse).
    destruct (Js.sort (compareDates Date_parse) (candidatesOf data)); [discriminate|].
    injection Hd as ->. now left. }
  split.
  { intros Hp d Hd. rewrite Hanswer in Hd. now apply sort_head_earliest. }
  split.
  { intros Hiso Hp. rewrite Hanswer, Hchosen.
    assert (Date_parse "2024-05-01" = Some 1714521600000) as H5
      by (apply Hiso; vm_compute; reflexivity).
    assert (Date_parse "2024-06-01" = Some 1717200000000) as H6
      by (apply Hiso; vm_compute; reflexivity).
    destruct (sort_two Date_parse _ _ _ _ H5 H6 ltac:(lia)) as [Ha Hb].
    destruct Hp as [-> | ->]; assumption. }
  intros Hp Hu. rewrite Hanswer, Hchosen, Hp, Hu. reflexivity.
Qed.

(** The first example of C1 on [Sample.usAndOthers], where the parser is
    [IsoDate.parse]. *)
Lemma C1_witness_us_and_others :
  readsIso IsoDate.parse /\
  firstUS (resultsOf Sample.usAndOthers)
    (Sample.region "US" [Sample.theatrical "2024-03-01"; Sample.digital "2024-06-01";
                         Sample.digital "2024-05-01"]) /\
  digitalDateOf IsoDate.parse Sample.usAndOthers = Some "2024-05-01".
Proof.
  assert (readsIso IsoDate.parse) as Hiso by (intros s t H; exact H).
  assert (firstUS (resultsOf Sample.usAndOthers)
            (Sample.region "US" [Sample.theatrical "2024-03-01"; Sample.digital "2024-06-01";
                                 Sample.digital "2024-05-01"])) as Hus.
  { exists [Sample.region "GB" [Sample.digital "2024-04-01"]], [].
    split; [reflexivity|]. split; [reflexivity|].
    intros r [<-|[]]. simpl. discriminate. }
  split; [exact Hiso|]. split; [exact Hus|].
  destruct (C1_resolver_earliest_of_chosen_set IsoDate.parse Sample.usAndOthers)
    as [preferred [chosen [_ [_ [Hpref [_ [_ [_ [_ [_ [Hex _]]]]]]]]]]].
  apply Hex; [exact Hiso|]. right. now rewrite (Hpref _ Hus).
Defined.

(** ** The display entry for a date *)

Lemma split0_prefix (sep : ascii) (s : string) :
  Js.startsWith s (Js.split0 sep s) = true.
Proof.
  induction s as [|c s IH]; [reflexivity|].
  rewrite split0_cons. destruct (Ascii.eqb c sep); [reflexivity|].
  now rewrite startsWith_cons, Ascii.eqb_refl, IH.
Qed.

Lemma startsWith_refl (s : string) : Js.startsWith s s = true.
Proof.
  induction s as [|c s IH]; [reflexivity|].
  now rewrite startsWith_cons, Ascii.eqb_refl, IH.
Qed.

(** The date shown is the beginning of the date string, and is not empty
    when the date string is not. *)
Lemma dateOnlyOf_prefix (plannedDate : string) :
  Js.startsWith plannedDate (dateOnlyOf plannedDate) = true.
Proof.
  unfold dateOnlyOf, Js.orElse.
  destruct (Js.truthy (Js.split0 "T" plannedDate));
    [apply split0_prefix | apply startsWith_refl].
Qed.

Lemma dateOnlyOf_truthy (plannedDate : string) :
  Js.truthy plannedDate = true -> Js.truthy (dateOnlyOf plannedDate) = true.
Proof.
  unfold dateOnlyOf, Js.orElse.
  now destruct (Js.truthy (Js.split0 "T" plannedDate)) eqn:E.
Qed.

Lemma dateOnlyOf_raw (plannedDate : string) :
  Js.split0 "T" plannedDate = "" \/ Js.split0 "T" plannedDate = plannedDate ->
  dateOnlyOf plannedDate = plannedDate.
Proof.
  unfold dateOnlyOf, Js.orElse. intros [-> | ->]; [reflexivity|].
  now destruct (Js.truthy plannedDate).
Qed.

Lemma split0_before (sep : ascii) (before rest : string) :
  lacks sep before = true ->
  Js.split0 sep (before ++ String sep rest) = before.
Proof.
  induction before as [|c before IH]; intros H.
  - simpl. now rewrite Ascii.eqb_refl.
  - simpl in H. apply andb_true_iff in H. destruct H as [Hc Hb].
    apply negb_true_iff in Hc. simpl. now rewrite Hc, IH.
Qed.

Lemma dateOnlyOf_before_T (plannedDate day rest : string) :
  plannedDate = day ++ String "T" rest -> day <> "" -> lacks "T" day = true ->
  dateOnlyOf plannedDate = day.
Proof.
  intros -> Hday Hlacks. unfold dateOnlyOf, Js.orElse.
  rewrite (split0_before "T" day rest Hlacks).
  apply truthy_nonempty in Hday. now rewrite Hday.
Qed.

Section Entries.

Variable env : option string.
Variable Date_parse : string -> option Z.
Variable provider : Provider.
Variable now : Z.

(** The answer once both lookups have returned. *)
Lemma handler_resolved args tmdbId plannedDate :
  Js.truthy (TMDB_API_KEY env) = true ->
  args_type args = "movie" ->
  Js.startsWith (args_id args) "tt" = true ->
  completion (getTmdbIdFromImdb env provider (Js.split0 ":" (args_id args)))
    = Return (Some tmdbId) ->
  tmdbId <> 0 ->
  completion (getDigitalReleaseDate env Date_parse provider tmdbId)
    = Return (Some plannedDate) ->
  Js.truthy plannedDate = true /\
  completion (streamHandler env Date_parse provider now args)
    = Return [entryForDate Date_parse now (tmdbUrlOf tmdbId) plannedDate].
Proof.
  intros Hk Ht Hp Hid Hnz Hdate.
  assert (Js.truthy plannedDate = true) as Htruthy.
  { rewrite completion_getDigitalReleaseDate in Hdate.
    destruct (completion (fetchJson _ _)) as [data|e]; [|discriminate].
    injection Hdate as Hdate. now apply digitalDateOf_truthy in Hdate. }
  split; [exact Htruthy|].
  rewrite (handler_looks_up _ _ _ _ _ Hk Ht Hp), completion_tryCatch, completion_lookup.
  rewrite Hid. unfold truthyId.
  destruct (Z.eqb_spec tmdbId 0) as [E|_]; [contradiction|].
  rewrite Hdate. unfold truthyDate. now rewrite Htruthy.
Qed.

Lemma requests_lookup imdbId :
  exists rest,
    requests (lookup env Date_parse provider now imdbId) = findUrl env imdbId :: rest.
Proof.
  unfold lookup, getTmdbIdFromImdb. rewrite !requests_bind, fetchJson_requests.
  simpl. eexists. reflexivity.
Qed.

End Entries.

(** * The claims about the stream handler *)

(** C2: the handler always returns, it never throws; and once the
    configuration, type and prefix checks have passed, a failed provider
    call (the call itself fails, a status outside 200-299, a body that is
    not JSON), be it the identifier lookup or the release-dates call made
    after an identifier was found, gives exactly the entry "TMDB error" with
    the generic landing link. *)
Theorem C2_provider_failures_give_the_error_entry
    (env : option string) (Date_parse : string -> option Z)
    (provider : Provider) (now : Z) (args : StreamArgs) :
  let imdbId := Js.split0 ":" (args_id args) in
  let answer := completion (streamHandler env Date_parse provider now args) in
  let errorEntry :=
    {| name := "TMDB error";
       title := "Failed to fetch release data";
       externalUrl := "https://www.themoviedb.org" |} in
  (exists streams, answer = Return streams) /\
  (Js.truthy (TMDB_API_KEY env) = true ->
   args_type args = "movie" ->
   Js.startsWith (args_id args) "tt" = true ->
   (Fails (fetchFind provider (findUrl env imdbId)) -> answer = Return [errorEntry]) /\
   (forall tmdbId,
      completion (getTmdbIdFromImdb env provider imdbId) = Return (Some tmdbId) ->
      tmdbId <> 0 ->
      Fails (fetchReleaseDates provider (releaseDatesUrl env tmdbId)) ->
      answer = Return [errorEntry])).
Proof.
  intros imdbId answer errorEntry. split.
  - unfold answer, streamHandler.
    destruct (negb (Js.truthy (TMDB_API_KEY env))); [now eexists|].
    destruct (negb (args_type args =? "movie")%string); [now eexists|].
    destruct (negb (Js.truthy _) || negb (Js.startsWith _ "tt")); [now eexists|].
    destruct (tryCatch_one_entry _ (lookup_one_or_throw env Date_parse provider now
                                      (Js.split0 ":" (args_id args)))) as [entry H].
    rewrite H. now eexists.
  - intros Hk Ht Hp. unfold answer.
    rewrite (handler_looks_up _ _ _ _ _ Hk Ht Hp), completion_tryCatch, completion_lookup.
    fold imdbId. split.
    + intros Hf. rewrite completion_getTmdbIdFromImdb.
      destruct (fetchJson_throws _ _ Hf) as [e ->]. reflexivity.
    + intros tmdbId Hid Hnz Hf. rewrite Hid. unfold truthyId.
      destruct (Z.eqb_spec tmdbId 0) as [E|_]; [contradiction|].
      rewrite completion_getDigitalReleaseDate.
      destruct (fetchJson_throws _ _ Hf) as [e ->]. reflexivity.
Qed.

(** C2 where the release-dates call answers with status 500. *)
Lemma C2_witness_status_500 :
  completion (streamHandler (Some "k") IsoDate.parse (Sample.providerWith 500 None)
                Sample.now (Sample.request "tt0133093"))
  = Return [tmdbError].
Proof.
  apply (proj2 (C2_provider_failures_give_the_error_entry (Some "k") IsoDate.parse
                  (Sample.providerWith 500 None) Sample.now (Sample.request "tt0133093")))
    with (tmdbId := 603).
  - reflexivity.
  - reflexivity.
  - reflexivity.
  - reflexivity.
  - discriminate.
  - apply Fails_status. reflexivity.
Defined.

(** C3, as stated, fails: the date string 1 OCT 2023, which the engine
    parses, is cut at its first T (the T of its month), so the title of the
    entry is "Released 1 OC": it holds neither the month nor the
    year of the date. *)
Lemma C3_counterexample_title_loses_the_date :
  let raw := "1 OCT 2023" in
  let provider := Sample.providerWith 200 (Some (Sample.oneDate raw)) in
  let page := "https://www.themoviedb.org/movie/603" in
  let shown := "Released 1 OC" in
  completion (getDigitalReleaseDate (Some "k") LegacyDate.parse provider 603)
    = Return (Some raw)
  /\ LegacyDate.parse raw = Some 1696118400000
  /\ 1696118400000 <= Sample.now
  /\ completion (streamHandler (Some "k") LegacyDate.parse provider Sample.now
                   (Sample.request "tt0133093"))
     = Return [ {| name := "Digital release"; title := shown; externalUrl := page |} ]
  /\ String.index 0 "OCT" shown = None
  /\ String.index 0 "2023" shown = None
  /\ completion (streamHandler (Some "k") LegacyDate.parse provider Sample.now
                   (Sample.request "tt0133093"))
     <> Return [ {| name := "Digital release";
                    title := "Released " ++ raw;
                    externalUrl := page |} ].
Proof.
  split; [|split; [|split; [|split; [|split; [|split]]]]].
  - vm_compute. reflexivity.
  - vm_compute. reflexivity.
  - vm_compute. discriminate.
  - vm_compute. reflexivity.
  - vm_compute. reflexivity.
  - vm_compute. reflexivity.
  - vm_compute. discriminate.
Qed.

(** C3 (amended): when the request passes the checks, the identifier
    lookup gives a non-zero identifier, the release-date resolver gives a
    date and that date parses to a time at or before the current time
    (equal included), the answer is the one entry "Digital release" with the
    link to the item's page; its title shows the date string cut at its first T: the part
    before the T for a string such as a timestamp YYYY-MM-DDT..., the raw
    date string when that has no T or begins with one. *)
Theorem C3_released_at_or_before_now
    (env : option string) (Date_parse : string -> option Z)
    (provider : Provider) (now : Z) (args : StreamArgs)
    (tmdbId : Z) (plannedDate : string) (releaseTime : Z) :
  Js.truthy (TMDB_API_KEY env) = true ->
  args_type args = "movie" ->
  Js.startsWith (args_id args) "tt" = true ->
  completion (getTmdbIdFromImdb env provider (Js.split0 ":" (args_id args)))
    = Return (Some tmdbId) ->
  tmdbId <> 0 ->
  completion (getDigitalReleaseDate env Date_parse provider tmdbId)
    = Return (Some plannedDate) ->
  Date_parse plannedDate = Some releaseTime ->
  releaseTime <= now ->
  let cut := Js.split0 "T" plannedDate in
  let answer := completion (streamHandler env Date_parse provider now args) in
  let page := "https://www.themoviedb.org/movie/" ++ Js.ofNumber tmdbId in
  answer = Return [ {| name := "Digital release";
                       title := "Released " ++ (if Js.truthy cut then cut else plannedDate);
                       externalUrl := page |} ]
  /\ (cut = "" \/ cut = plannedDate ->
      answer = Return [ {| name := "Digital release";
                           title := "Released " ++ plannedDate;
                           externalUrl := page |} ])
  /\ (forall day rest,
        plannedDate = day ++ String "T" rest -> day <> "" -> lacks "T" day = true ->
        answer = Return [ {| name := "Digital release";
                             title := "Released " ++ day;
                             externalUrl := page |} ]).
Proof.
  intros Hk Ht Hp Hid Hnz Hdate Hparse Hcmp cut answer page. unfold answer.
  destruct (handler_resolved env Date_parse provider now args tmdbId plannedDate
              Hk Ht Hp Hid Hnz Hdate) as [Htruthy ->].
  assert (entryForDate Date_parse now (tmdbUrlOf tmdbId) plannedDate
          = digitalRelease (dateOnlyOf plannedDate) (tmdbUrlOf tmdbId)) as ->.
  { unfold entryForDate. rewrite Hparse.
    destruct (Z.leb_spec releaseTime now); [reflexivity | lia]. }
  split; [reflexivity|]. split.
  - intros Hcut. now rewrite (dateOnlyOf_raw plannedDate Hcut).
  - intros day rest Hshape Hday Hlacks.
    now rewrite (dateOnlyOf_before_T plannedDate day rest Hshape Hday Hlacks).
Qed.

(** C3 where the release time equals the current time. *)
Lemma C3_witness_released_now :
  completion (streamHandler (Some "k") IsoDate.parse
                (Sample.providerWith 200 (Some (Sample.oneDate "2024-05-15T12:00:00.000Z")))
                Sample.now (Sample.request "tt0133093"))
  = Return [digitalRelease "2024-05-15" "https://www.themoviedb.org/movie/603"].
Proof.
  refine (proj1 (C3_released_at_or_before_now (Some "k") IsoDate.parse
                   (Sample.providerWith 200 (Some (Sample.oneDate "2024-05-15T12:00:00.000Z")))
                   Sample.now (Sample.request "tt0133093") 603 "2024-05-15T12:00:00.000Z"
                   Sample.now _ _ _ _ _ _ _ _)).
  - reflexivity.
  - reflexivity.
  - reflexivity.
  - reflexivity.
  - discriminate.
  - vm_compute. reflexivity.
  - vm_compute. reflexivity.
  - apply Z.le_refl.
Defined.

(** C4, as stated, fails: the date string 1 OCT 2024, which the engine
    parses, is cut at its first T (the T of its month), so the title of the
    entry is "Digital release: 1 OC — Check back after that date!": it holds neither the month nor the
    year of the date. *)
Lemma C4_counterexample_title_loses_the_date :
  let raw := "1 OCT 2024" in
  let provider := Sample.providerWith 200 (Some (Sample.oneDate raw)) in
  let page := "https://www.themoviedb.org/movie/603" in
  let shown := "Digital release: 1 OC — Check back after that date!" in
  completion (getDigitalReleaseDate (Some "k") LegacyDate.parse provider 603)
    = Return (Some raw)
  /\ LegacyDate.parse raw = Some 1727740800000
  /\ Sample.now < 1727740800000
  /\ completion (streamHandler (Some "k") LegacyDate.parse provider Sample.now
                   (Sample.request "tt0133093"))
     = Return [ {| name := "⏳ Not Available Yet"; title := shown; externalUrl := page |} ]
  /\ String.index 0 "OCT" shown = None
  /\ String.index 0 "2024" shown = None
  /\ completion (streamHandler (Some "k") LegacyDate.parse provider Sample.now
                   (Sample.request "tt0133093"))
     <> Return [ {| name := "⏳ Not Available Yet";
                    title := "Digital release: " ++ raw ++ " — Check back after that date!";
                    externalUrl := page |} ].
Proof.
  split; [|split; [|split; [|split; [|split; [|split]]]]].
  - vm_compute. reflexivity.
  - vm_compute. reflexivity.
  - vm_compute. reflexivity.
  - vm_compute. reflexivity.
  - vm_compute. reflexivity.
  - vm_compute. reflexivity.
  - vm_compute. discriminate.
Qed.

(** C4 (amended): when the request passes the checks, the identifier
    lookup gives a non-zero identifier, the release-date resolver gives a
    date and that date parses to a time strictly after the current time,
    the answer is the one entry "Not Available Yet" with the link to the
    item's page; its title shows the date string cut at its first T: the part
    before the T for a string such as a timestamp YYYY-MM-DDT..., the raw
    date string when that has no T or begins with one. *)
Theorem C4_not_available_before_release
    (env : option string) (Date_parse : string -> option Z)
    (provider : Provider) (now : Z) (args : StreamArgs)
    (tmdbId : Z) (plannedDate : string) (releaseTime : Z) :
  Js.truthy (TMDB_API_KEY env) = true ->
  args_type args = "movie" ->
  Js.startsWith (args_id args) "tt" = true ->
  completion (getTmdbIdFromImdb env provider (Js.split0 ":" (args_id args)))
    = Return (Some tmdbId) ->
  tmdbId <> 0 ->
  completion (getDigitalReleaseDate env Date_parse provider tmdbId)
    = Return (Some plannedDate) ->
  Date_parse plannedDate = Some releaseTime ->
  now < releaseTime ->
  let cut := Js.split0 "T" plannedDate in
  let answer := completion (streamHandler env Date_parse provider now args) in
  let page := "https://www.themoviedb.org/movie/" ++ Js.ofNumber tmdbId in
  answer = Return [ {| name := "⏳ Not Available Yet";
                       title := "Digital release: " ++ (if Js.truthy cut then cut else plannedDate)
                                  ++ " — Check back after that date!";
                       externalUrl := page |} ]
  /\ (cut = "" \/ cut = plannedDate ->
      answer = Return [ {| name := "⏳ Not Available Yet";
                           title := "Digital release: " ++ plannedDate
                                  ++ " — Check back after that date!";
                           externalUrl := page |} ])
  /\ (forall day rest,
        plannedDate = day ++ String "T" rest -> day <> "" -> lacks "T" day = true ->
        answer = Return [ {| name := "⏳ Not Available Yet";
                             title := "Digital release: " ++ day
                                  ++ " — Check back after that date!";
                             externalUrl := page |} ]).
Proof.
  intros Hk Ht Hp Hid Hnz Hdate Hparse Hcmp cut answer page. unfold answer.
  destruct (handler_resolved env Date_parse provider now args tmdbId plannedDate
              Hk Ht Hp Hid Hnz Hdate) as [Htruthy ->].
  assert (entryForDate Date_parse now (tmdbUrlOf tmdbId) plannedDate
          = notAvailableYet (dateOnlyOf plannedDate) (tmdbUrlOf tmdbId)) as ->.
  { unfold entryForDate. rewrite Hparse.
    destruct (Z.leb_spec releaseTime now); [lia | reflexivity]. }
  split; [reflexivity|]. split.
  - intros Hcut. now rewrite (dateOnlyOf_raw plannedDate Hcut).
  - intros day rest Hshape Hday Hlacks.
    now rewrite (dateOnlyOf_before_T plannedDate day rest Hshape Hday Hlacks).
Qed.

(** C4 for a release on 2024-06-01, asked about on 2024-05-15. *)
Lemma C4_witness_release_in_june :
  completion (streamHandler (Some "k") IsoDate.parse
                (Sample.providerWith 200 (Some (Sample.oneDate "2024-06-01T00:00:00.000Z")))
                Sample.now (Sample.request "tt0133093"))
  = Return [notAvailableYet "2024-06-01" "https://www.themoviedb.org/movie/603"].
Proof.
  refine (proj1 (C4_not_available_before_release (Some "k") IsoDate.parse
                   (Sample.providerWith 200 (Some (Sample.oneDate "2024-06-01T00:00:00.000Z")))
                   Sample.now (Sample.request "tt0133093") 603 "2024-06-01T00:00:00.000Z"
                   1717200000000 _ _ _ _ _ _ _ _)).
  - reflexivity.
  - reflexivity.
  - reflexivity.
  - reflexivity.
  - discriminate.
  - vm_compute. reflexivity.
  - vm_compute. reflexivity.
  - reflexivity.
Defined.

(** C5, as stated, fails: for the date string 2024-13-01T00:00:00.000Z,
    which does not parse (there is no month 13), the title of the entry is
    "Planned digital release: 2024-13-01": it shows the string cut at its
    first T, not the raw string. *)
Lemma C5_counterexample_title_cut_at_T :
  let raw := "2024-13-01T00:00:00.000Z" in
  let provider := Sample.providerWith 200 (Some (Sample.oneDate raw)) in
  let page := "https://www.themoviedb.org/movie/603" in
  completion (getDigitalReleaseDate (Some "k") IsoDate.parse provider 603) = Return (Some raw)
  /\ IsoDate.parse raw = None
  /\ completion (streamHandler (Some "k") IsoDate.parse provider Sample.now
                   (Sample.request "tt0133093"))
     = Return [ {| name := "Not yet available";
                   title := "Planned digital release: 2024-13-01";
                   externalUrl := page |} ]
  /\ completion (streamHandler (Some "k") IsoDate.parse provider Sample.now
                   (Sample.request "tt0133093"))
     <> Return [ {| name := "Not yet available";
                    title := "Planned digital release: " ++ raw;
                    externalUrl := page |} ].
Proof.
  split; [|split; [|split]].
  - vm_compute. reflexivity.
  - vm_compute. reflexivity.
  - vm_compute. reflexivity.
  - vm_compute. discriminate.
Qed.

(** C5 (amended): when the request passes the checks, the identifier lookup
    gives a non-zero identifier and the release-date resolver gives a date
    that does not parse, the answer is the one entry "Not yet available"
    with the link to the item's page; its title shows the date string cut at
    its first T, which is the raw date string when that has no T or begins
    with one. *)
Theorem C5_unparseable_date_entry
    (env : option string) (Date_parse : string -> option Z)
    (provider : Provider) (now : Z) (args : StreamArgs)
    (tmdbId : Z) (plannedDate : string) :
  Js.truthy (TMDB_API_KEY env) = true ->
  args_type args = "movie" ->
  Js.startsWith (args_id args) "tt" = true ->
  completion (getTmdbIdFromImdb env provider (Js.split0 ":" (args_id args)))
    = Return (Some tmdbId) ->
  tmdbId <> 0 ->
  completion (getDigitalReleaseDate env Date_parse provider tmdbId)
    = Return (Some plannedDate) ->
  Date_parse plannedDate = None ->
  let cut := Js.split0 "T" plannedDate in
  completion (streamHandler env Date_parse provider now args)
  = Return [ {| name := "Not yet available";
                title := "Planned digital release: " ++ (if Js.truthy cut then cut else plannedDate);
                externalUrl := "https://www.themoviedb.org/movie/" ++ Js.ofNumber tmdbId |} ]
  /\ (cut = "" \/ cut = plannedDate ->
      completion (streamHandler env Date_parse provider now args)
      = Return [ {| name := "Not yet available";
                    title := "Planned digital release: " ++ plannedDate;
                    externalUrl := "https://www.themoviedb.org/movie/" ++ Js.ofNumber tmdbId |} ]).
Proof.
  intros Hk Ht Hp Hid Hnz Hdate Hparse cut.
  destruct (handler_resolved env Date_parse provider now args tmdbId plannedDate
              Hk Ht Hp Hid Hnz Hdate) as [Htruthy ->].
  unfold entryForDate. rewrite Hparse. split; [reflexivity|].
  intros Hcut. now rewrite (dateOnlyOf_raw plannedDate Hcut).
Qed.

(** C5 for the date string TBA, which begins with a T and is shown raw. *)
Lemma C5_witness_tba :
  completion (streamHandler (Some "k") IsoDate.parse
                (Sample.providerWith 200 (Some (Sample.oneDate "TBA")))
                Sample.now (Sample.request "tt0133093"))
  = Return [notYetAvailable "TBA" "https://www.themoviedb.org/movie/603"].
Proof.
  apply (C5_unparseable_date_entry (Some "k") IsoDate.parse
           (Sample.providerWith 200 (Some (Sample.oneDate "TBA")))
           Sample.now (Sample.request "tt0133093") 603 "TBA").
  - reflexivity.
  - reflexivity.
  - reflexivity.
  - reflexivity.
  - discriminate.
  - vm_compute. reflexivity.
  - vm_compute. reflexivity.
  - left. reflexivity.
Defined.

(** C6: without an API key (the variable unset or empty) the answer is
    exactly the one entry "Configuration error", whatever the request, the
    provider, the date parser and the clock are, and nothing is requested. *)
Theorem C6_missing_key_gives_configuration_error
    (env : option string) (Date_parse : string -> option Z)
    (provider : Provider) (now : Z) (args : StreamArgs) :
  env = None \/ env = Some "" ->
  streamHandler env Date_parse provider now args
  = (Return [ {| name := "Configuration error";
                 title := "TMDB_API_KEY is not set";
                 externalUrl := "https://www.themoviedb.org" |} ], []).
Proof.
  intros H. apply TMDB_API_KEY_missing in H.
  apply handler_unconfigured. now apply truthy_empty.
Qed.

(** C6 for a well-formed film request while the key is unset. *)
Lemma C6_witness_key_unset :
  streamHandler None IsoDate.parse
    (Sample.providerWith 200 (Some (Sample.oneDate "2024-05-01")))
    Sample.now (Sample.request "tt0133093")
  = (Return [configurationError], []).
Proof.
  apply C6_missing_key_gives_configuration_error. left. reflexivity.
Defined.

(** C7: with an API key, a request whose type is not "movie" or whose
    identifier does not start with "tt" is answered with the empty list, and
    no URL has been requested. *)
Theorem C7_other_types_and_prefixes_give_nothing
    (env : option string) (Date_parse : string -> option Z)
    (provider : Provider) (now : Z) (args : StreamArgs) :
  TMDB_API_KEY env <> "" ->
  args_type args <> "movie" \/ Js.startsWith (args_id args) "tt" = false ->
  completion (streamHandler env Date_parse provider now args) = Return []
  /\ requests (streamHandler env Date_parse provider now args) = [].
Proof.
  intros Hk H. apply truthy_nonempty in Hk.
  rewrite (handler_rejects env Date_parse provider now args Hk); [now split|].
  destruct H as [H|H].
  - apply String.eqb_neq in H. now rewrite H.
  - rewrite H. apply andb_false_r.
Qed.

(** C7 for a series request and for a film request with another prefix. *)
Lemma C7_witness_series_and_kitsu :
  streamHandler (Some "k") IsoDate.parse (Sample.providerWith 200 None) Sample.now
    {| args_type := "series"; args_id := "tt0944947:1:1" |} = (Return [], [])
  /\ streamHandler (Some "k") IsoDate.parse (Sample.providerWith 200 None) Sample.now
       (Sample.request "kitsu:42") = (Return [], []).
Proof.
  split; apply injective_projections;
    apply (C7_other_types_and_prefixes_give_nothing (Some "k") IsoDate.parse
             (Sample.providerWith 200 None) Sample.now);
    try discriminate.
  - left. discriminate.
  - left. discriminate.
  - right. reflexivity.
  - right. reflexivity.
Defined.

(** C8: for a film request with the "tt" prefix, an identifier lookup that
    succeeds with no result ([movie_results] absent or empty) gives the one
    entry "No TMDB match", naming the identifier, with the generic landing
    link; only the lookup is requested. *)
Theorem C8_no_match_entry
    (env : option string) (Date_parse : string -> option Z)
    (provider : Provider) (now : Z) (args : StreamArgs)
    (response : HttpResponse TmdbFindResponse) (data : TmdbFindResponse) :
  let imdbId := Js.split0 ":" (args_id args) in
  TMDB_API_KEY env <> "" ->
  args_type args = "movie" ->
  Js.startsWith (args_id args) "tt" = true ->
  fetchFind provider (findUrl env imdbId) = Some response ->
  ok response = true ->
  json response = Some data ->
  movie_results data = None \/ movie_results data = Some [] ->
  streamHandler env Date_parse provider now args
  = (Return [ {| name := "No TMDB match";
                 title := "No TMDB match for " ++ imdbId;
                 externalUrl := "https://www.themoviedb.org" |} ],
     [findUrl env imdbId]).
Proof.
  intros imdbId Hk Ht Hp Hf Hok Hj Hnone. apply truthy_nonempty in Hk.
  rewrite (handler_looks_up env Date_parse provider now args Hk Ht Hp). fold imdbId.
  unfold lookup, getTmdbIdFromImdb.
  rewrite (fetchJson_returns _ _ _ _ Hf Hok Hj). cbn [bind ret].
  assert (firstMovieId data = None) as ->
    by (unfold firstMovieId; destruct Hnone as [-> | ->]; reflexivity).
  reflexivity.
Qed.

(** C8 for a provider that knows no film. *)
Lemma C8_witness_unknown_film :
  streamHandler (Some "k") IsoDate.parse Sample.providerNoMatch Sample.now
    (Sample.request "tt0000000")
  = (Return [noTmdbMatch "tt0000000"],
     ["https://api.themoviedb.org/3/find/tt0000000?api_key=k&external_source=imdb_id"]).
Proof.
  apply (C8_no_match_entry (Some "k") IsoDate.parse Sample.providerNoMatch Sample.now
           (Sample.request "tt0000000")
           {| status := 200; json := Some {| movie_results := Some [] |} |}
           {| movie_results := Some [] |}).
  - discriminate.
  - reflexivity.
  - reflexivity.
  - reflexivity.
  - reflexivity.
  - reflexivity.
  - right. reflexivity.
Defined.

(** C9: the handler always returns a list; the list is empty in the two
    empty-result cases (an API key is set and the type is not "movie" or the
    identifier lacks the "tt" prefix), and has exactly one entry in every
    other case, whatever the provider does. *)
Theorem C9_at_most_one_entry
    (env : option string) (Date_parse : string -> option Z)
    (provider : Provider) (now : Z) (args : StreamArgs) :
  exists streams,
    completion (streamHandler env Date_parse provider now args) = Return streams /\
    (List.length streams <= 1)%nat /\
    if Js.truthy (TMDB_API_KEY env)
       && (negb (args_type args =? "movie")%string
           || negb (Js.startsWith (args_id args) "tt"))
    then streams = []
    else exists entry, streams = [entry].
Proof.
  destruct (Js.truthy (TMDB_API_KEY env)) eqn:Hk; cbn [andb].
  2: { rewrite (handler_unconfigured env Date_parse provider now args Hk).
       exists [configurationError]. repeat split; eauto. }
  destruct (args_type args =? "movie")%string eqn:Ht; cbn [negb orb].
  2: { rewrite (handler_rejects env Date_parse provider now args Hk)
         by (now rewrite Ht).
       exists []. repeat split; auto. }
  destruct (Js.startsWith (args_id args) "tt") eqn:Hp; cbn [negb].
  2: { rewrite (handler_rejects env Date_parse provider now args Hk)
         by (now rewrite Ht, Hp).
       exists []. repeat split; auto. }
  apply String.eqb_eq in Ht.
  rewrite (handler_looks_up env Date_parse provider now args Hk Ht Hp).
  destruct (tryCatch_one_entry _ (lookup_one_or_throw env Date_parse provider now
                                    (Js.split0 ":" (args_id args)))) as [entry H].
  exists [entry]. repeat split; eauto.
Qed.

(** C10: for a film request (an API key being set) the handler uses only
    the identifier's part before its first colon: two film requests that
    agree on that part get the same answer; when the part starts with "tt"
    the first URL requested is the provider's lookup of that part, so for
    "tt1234:1:2" it is the lookup of "tt1234"; and when the part is empty
    the answer is the empty list. *)
Theorem C10_identifier_part_before_colon
    (env : option string) (Date_parse : string -> option Z)
    (provider : Provider) (now : Z) (args : StreamArgs) :
  TMDB_API_KEY env <> "" ->
  args_type args = "movie" ->
  let imdbId := Js.split0 ":" (args_id args) in
  let handler := streamHandler env Date_parse provider now in
  (forall args', args_type args' = "movie" ->
                 Js.split0 ":" (args_id args') = imdbId ->
                 handler args' = handler args) /\
  (Js.startsWith imdbId "tt" = true ->
   exists rest,
     requests (handler args)
     = ("https://api.themoviedb.org/3/find/" ++ imdbId ++ "?api_key=" ++ TMDB_API_KEY env
          ++ "&external_source=imdb_id") :: rest) /\
  (args_id args = "tt1234:1:2" ->
   exists rest,
     requests (handler args)
     = ("https://api.themoviedb.org/3/find/tt1234?api_key=" ++ TMDB_API_KEY env
          ++ "&external_source=imdb_id") :: rest) /\
  (imdbId = "" -> handler args = (Return [], [])).
Proof.
  intros Hk Ht imdbId handler. apply truthy_nonempty in Hk.
  assert (Js.startsWith imdbId "tt" = true ->
          exists rest, requests (handler args) = findUrl env imdbId :: rest) as Hreq.
  { intros Hp. unfold imdbId in Hp. rewrite startsWith_tt_split0 in Hp.
    unfold handler. rewrite (handler_looks_up env Date_parse provider now args Hk Ht Hp).
    rewrite requests_tryCatch_ret. apply requests_lookup. }
  split; [|split; [|split]].
  - intros args' Ht' Hid. unfold handler, streamHandler.
    now rewrite Ht, Ht', Hid.
  - exact Hreq.
  - intros Hid. unfold imdbId in Hreq. rewrite Hid in Hreq. now apply Hreq.
  - intros Hempty. apply (handler_rejects env Date_parse provider now args Hk).
    rewrite <- startsWith_tt_split0. fold imdbId. rewrite Hempty. apply andb_false_r.
Qed.

(** C10 for the identifier tt1234:1:2. *)
Lemma C10_witness_suffixed_identifier :
  exists rest,
    requests (streamHandler (Some "k") IsoDate.parse Sample.providerNoMatch Sample.now
                (Sample.request "tt1234:1:2"))
    = "https://api.themoviedb.org/3/find/tt1234?api_key=k&external_source=imdb_id" :: rest.
Proof.
  apply (C10_identifier_part_before_colon (Some "k") IsoDate.parse Sample.providerNoMatch
           Sample.now (Sample.request "tt1234:1:2")).
  - discriminate.
  - reflexivity.
  - reflexivity.
Defined.

(** * Further properties of the add-on *)

(** ** What is requested *)

Lemma bind_ext {A B} (m : Async A) (k k' : A -> Async B) :
  (forall a, k a = k' a) -> bind m k = bind m k'.
Proof.
  intros H. destruct m as [[a|e] l]; simpl; [now rewrite H | reflexivity].
Qed.

Section Requests.

Variable env : option string.
Variable Date_parse : string -> option Z.
Variable provider : Provider.
Variable now : Z.

Lemma requests_getTmdbIdFromImdb imdbId :
  requests (getTmdbIdFromImdb env provider imdbId) = [findUrl env imdbId].
Proof.
  unfold getTmdbIdFromImdb. rewrite requests_bind, fetchJson_requests.
  now destruct (completion (fetchJson _ _)).
Qed.

Lemma requests_getDigitalReleaseDate tmdbId :
  requests (getDigitalReleaseDate env Date_parse provider tmdbId)
  = [releaseDatesUrl env tmdbId].
Proof.
  unfold getDigitalReleaseDate. rewrite requests_bind, fetchJson_requests.
  now destruct (completion (fetchJson _ _)).
Qed.

(** The URLs of the [try] block: the lookup, then the release dates of the
    identifier found, if one was found. *)
Lemma requests_lookup_exact imdbId :
  requests (lookup env Date_parse provider now imdbId)
  = findUrl env imdbId ::
    match completion (getTmdbIdFromImdb env provider imdbId) with
    | Return (Some n) => if n =? 0 then [] else [releaseDatesUrl env n]
    | _ => []
    end.
Proof.
  unfold lookup. rewrite requests_bind, requests_getTmdbIdFromImdb.
  destruct (completion (getTmdbIdFromImdb env provider imdbId)) as [[n|]|e];
    try reflexivity.
  unfold truthyId. destruct (n =? 0); [reflexivity|].
  rewrite requests_bind, requests_getDigitalReleaseDate.
  destruct (completion (getDigitalReleaseDate env Date_parse provider n)) as [d|e];
    [|reflexivity].
  now destruct (truthyDate d).
Qed.

Lemma requests_streamHandler args :
  requests (streamHandler env Date_parse provider now args)
  = if Js.truthy (TMDB_API_KEY env) && (args_type args =? "movie")%string
       && Js.startsWith (args_id args) "tt"
    then findUrl env (Js.split0 ":" (args_id args)) ::
         match completion (getTmdbIdFromImdb env provider (Js.split0 ":" (args_id args))) with
         | Return (Some n) => if n =? 0 then [] else [releaseDatesUrl env n]
         | _ => []
         end
    else [].
Proof.
  destruct (Js.truthy (TMDB_API_KEY env)) eqn:Hk; cbn [andb].
  2: { now rewrite (handler_unconfigured env Date_parse provider now args Hk). }
  destruct (args_type args =? "movie")%string eqn:Ht; cbn [andb].
  2: { rewrite (handler_rejects env Date_parse provider now args Hk);
         [reflexivity | now rewrite Ht]. }
  destruct (Js.startsWith (args_id args) "tt") eqn:Hp.
  2: { rewrite (handler_rejects env Date_parse provider now args Hk);
         [reflexivity | now rewrite Ht, Hp]. }
  apply String.eqb_eq in Ht.
  rewrite (handler_looks_up env Date_parse provider now args Hk Ht Hp).
  rewrite requests_tryCatch_ret. apply requests_lookup_exact.
Qed.

End Requests.

Lemma digitalDateOf_none (Date_parse : string -> option Z) data :
  (forall d, ~ digitalDateIn (resultsOf data) d) ->
  digitalDateOf Date_parse data = None.
Proof.
  intros Hno. rewrite digitalDateOf_candidates.
  destruct (candidatesOf data) as [|d l] eqn:E; [reflexivity|].
  exfalso. apply (Hno d), getDigitalDates_In, candidatesOf_sub.
  rewrite E. now left.
Qed.

Lemma digitalDateOf_some (Date_parse : string -> option Z) data d :
  digitalDateOf Date_parse data = Some d -> digitalDateIn (resultsOf data) d.
Proof.
  rewrite digitalDateOf_candidates. intros H.
  apply getDigitalDates_In, candidatesOf_sub, (sort_In Date_parse).
  destruct (Js.sort (compareDates Date_parse) (candidatesOf data)); [discriminate|].
  injection H as ->. now left.
Qed.

(** X1: when the film is found and its release dates arrive but hold no
    release of type 4 with a date (in any region), the answer is the one
    entry "No digital date" with the link to the film's page, and the two
    requests made are the lookup and the release dates of the identifier
    found. *)
Theorem X1_no_digital_date_entry
    (env : option string) (Date_parse : string -> option Z)
    (provider : Provider) (now : Z) (args : StreamArgs)
    (tmdbId : Z) (response : HttpResponse TmdbReleaseDatesResponse)
    (data : TmdbReleaseDatesResponse) :
  let imdbId := Js.split0 ":" (args_id args) in
  TMDB_API_KEY env <> "" ->
  args_type args = "movie" ->
  Js.startsWith (args_id args) "tt" = true ->
  completion (getTmdbIdFromImdb env provider imdbId) = Return (Some tmdbId) ->
  tmdbId <> 0 ->
  fetchReleaseDates provider (releaseDatesUrl env tmdbId) = Some response ->
  ok response = true ->
  json response = Some data ->
  (forall result release,
     In result (resultsOf data) -> In release (releasesOf result) ->
     type release <> 4 \/ release_date release = "") ->
  streamHandler env Date_parse provider now args
  = (Return [ {| name := "No digital date";
                 title := "No digital release date found";
                 externalUrl := "https://www.themoviedb.org/movie/" ++ Js.ofNumber tmdbId |} ],
     [findUrl env imdbId; releaseDatesUrl env tmdbId]).
Proof.
  intros imdbId Hk Ht Hp Hid Hnz Hf Hok Hj Hnone.
  apply truthy_nonempty in Hk.
  assert (digitalDateOf Date_parse data = None) as Hdate.
  { apply digitalDateOf_none. intros d [result [release [Hr [Hrel [[Ht4 Hd] _]]]]].
    destruct (Hnone result release Hr Hrel); contradiction. }
  apply injective_projections.
  - change (completion (streamHandler env Date_parse provider now args)
            = Return [noDigitalDate (tmdbUrlOf tmdbId)]).
    rewrite (handler_looks_up env Date_parse provider now args Hk Ht Hp).
    rewrite completion_tryCatch, completion_lookup. fold imdbId. rewrite Hid.
    unfold truthyId. destruct (Z.eqb_spec tmdbId 0) as [E|_]; [contradiction|].
    rewrite completion_getDigitalReleaseDate, (fetchJson_returns _ _ _ _ Hf Hok Hj).
    cbn [completion fst]. now rewrite Hdate.
  - change (requests (streamHandler env Date_parse provider now args)
            = [findUrl env imdbId; releaseDatesUrl env tmdbId]).
    rewrite requests_streamHandler, Hk, Ht, String.eqb_refl, Hp. cbn [andb].
    fold imdbId. rewrite Hid.
    now destruct (Z.eqb_spec tmdbId 0) as [E|_]; [contradiction|].
Qed.

(** X1 for a film that only has a theatrical release. *)
Lemma X1_witness_theatrical_only :
  streamHandler (Some "k") IsoDate.parse
    (Sample.providerWith 200
       (Some {| results := Some [Sample.region "US" [Sample.theatrical "2024-03-01"]] |}))
    Sample.now (Sample.request "tt0133093")
  = (Return [noDigitalDate "https://www.themoviedb.org/movie/603"],
     ["https://api.themoviedb.org/3/find/tt0133093?api_key=k&external_source=imdb_id";
      "https://api.themoviedb.org/3/movie/603/release_dates?api_key=k"]).
Proof.
  apply (X1_no_digital_date_entry (Some "k") IsoDate.parse
           (Sample.providerWith 200
              (Some {| results := Some [Sample.region "US" [Sample.theatrical "2024-03-01"]] |}))
           Sample.now (Sample.request "tt0133093") 603
           {| status := 200;
              json := Some {| results := Some [Sample.region "US"
                                                 [Sample.theatrical "2024-03-01"]] |} |}
           {| results := Some [Sample.region "US" [Sample.theatrical "2024-03-01"]] |}).
  - discriminate.
  - reflexivity.
  - reflexivity.
  - reflexivity.
  - discriminate.
  - reflexivity.
  - reflexivity.
  - reflexivity.
  - intros result release [<-|[]] [<-|[]]. left. discriminate.
Defined.

(** X2: a lookup whose first result has the identifier 0 is treated as no
    match: the answer is the one entry "No TMDB match" and the release dates
    are never requested. *)
Theorem X2_identifier_zero_is_no_match
    (env : option string) (Date_parse : string -> option Z)
    (provider : Provider) (now : Z) (args : StreamArgs) :
  let imdbId := Js.split0 ":" (args_id args) in
  TMDB_API_KEY env <> "" ->
  args_type args = "movie" ->
  Js.startsWith (args_id args) "tt" = true ->
  completion (getTmdbIdFromImdb env provider imdbId) = Return (Some 0) ->
  streamHandler env Date_parse provider now args
  = (Return [ {| name := "No TMDB match";
                 title := "No TMDB match for " ++ imdbId;
                 externalUrl := "https://www.themoviedb.org" |} ],
     [findUrl env imdbId]).
Proof.
  intros imdbId Hk Ht Hp Hid. apply truthy_nonempty in Hk.
  apply injective_projections.
  - change (completion (streamHandler env Date_parse provider now args)
            = Return [noTmdbMatch imdbId]).
    rewrite (handler_looks_up env Date_parse provider now args Hk Ht Hp).
    rewrite completion_tryCatch, completion_lookup. fold imdbId. now rewrite Hid.
  - change (requests (streamHandler env Date_parse provider now args)
            = [findUrl env imdbId]).
    rewrite requests_streamHandler, Hk, Ht, String.eqb_refl, Hp. cbn [andb].
    fold imdbId. now rewrite Hid.
Qed.

(** X2 for a provider whose only result has the identifier 0. *)
Lemma X2_witness_result_zero :
  streamHandler (Some "k") IsoDate.parse
    {| fetchFind := fun _ => Sample.answer 200 (Some (Sample.found 0));
       fetchReleaseDates := fun _ => Sample.answer 200 (Some (Sample.oneDate "2024-05-01")) |}
    Sample.now (Sample.request "tt0133093")
  = (Return [noTmdbMatch "tt0133093"],
     ["https://api.themoviedb.org/3/find/tt0133093?api_key=k&external_source=imdb_id"]).
Proof.
  apply (X2_identifier_zero_is_no_match (Some "k") IsoDate.parse
           {| fetchFind := fun _ => Sample.answer 200 (Some (Sample.found 0));
              fetchReleaseDates :=
                fun _ => Sample.answer 200 (Some (Sample.oneDate "2024-05-01")) |}
           Sample.now (Sample.request "tt0133093")).
  - discriminate.
  - reflexivity.
  - reflexivity.
  - reflexivity.
Defined.

(** X3: the handler requests nothing, or the lookup alone, or the lookup
    followed by the release dates of the non-zero identifier the lookup
    returned.  It requests nothing exactly when the key is missing, the type
    is not "movie" or the identifier lacks the "tt" prefix; and what it
    requests does not depend on the date parser or on the clock. *)
Theorem X3_lookup_then_release_dates
    (env : option string) (Date_parse : string -> option Z)
    (provider : Provider) (now : Z) (args : StreamArgs) :
  let imdbId := Js.split0 ":" (args_id args) in
  let log := requests (streamHandler env Date_parse provider now args) in
  (log = [] \/
   log = [findUrl env imdbId] \/
   exists tmdbId,
     tmdbId <> 0 /\
     completion (getTmdbIdFromImdb env provider imdbId) = Return (Some tmdbId) /\
     log = [findUrl env imdbId; releaseDatesUrl env tmdbId]) /\
  (log = [] <->
   TMDB_API_KEY env = "" \/ args_type args <> "movie"
   \/ Js.startsWith (args_id args) "tt" = false) /\
  (forall Date_parse' now',
     requests (streamHandler env Date_parse' provider now' args) = log).
Proof.
  intros imdbId log. split; [|split].
  - unfold log. rewrite requests_streamHandler. fold imdbId.
    destruct (_ && _ && _); [|now left]. right.
    destruct (completion (getTmdbIdFromImdb env provider imdbId)) as [[n|]|e];
      try (now left).
    destruct (Z.eqb_spec n 0) as [E|N]; [now left|].
    right. now exists n.
  - unfold log. rewrite requests_streamHandler.
    destruct (Js.truthy (TMDB_API_KEY env)) eqn:Hk;
      destruct (String.eqb_spec (args_type args) "movie") as [Ht|Ht];
      destruct (Js.startsWith (args_id args) "tt") eqn:Hp; cbn [andb];
      try apply truthy_nonempty in Hk; try apply truthy_empty in Hk;
      split; intros H; auto; try discriminate.
    destruct H as [H|[H|H]]; [contradiction | contradiction | discriminate].
  - intros Date_parse' now'. unfold log. now rewrite !requests_streamHandler.
Qed.

(** X4: every URL the handler requests is under the provider's API base
    and is one of two strings: the lookup of the identifier's part before
    its first colon, or the release dates of the non-zero identifier the
    lookup returned.  The identifier part and the API key stand in them as
    they are, the key after [?api_key=]. *)
Theorem X4_requests_are_the_two_api_urls
    (env : option string) (Date_parse : string -> option Z)
    (provider : Provider) (now : Z) (args : StreamArgs) (url : string) :
  In url (requests (streamHandler env Date_parse provider now args)) ->
  Js.startsWith url "https://api.themoviedb.org/3/" = true /\
  (url = "https://api.themoviedb.org/3/find/" ++ Js.split0 ":" (args_id args)
           ++ "?api_key=" ++ TMDB_API_KEY env ++ "&external_source=imdb_id"
   \/
   exists tmdbId,
     tmdbId <> 0 /\
     completion (getTmdbIdFromImdb env provider (Js.split0 ":" (args_id args)))
       = Return (Some tmdbId) /\
     url = "https://api.themoviedb.org/3/movie/" ++ Js.ofNumber tmdbId
             ++ "/release_dates?api_key=" ++ TMDB_API_KEY env).
Proof.
  rewrite requests_streamHandler.
  destruct (_ && _ && _); [|now intros []].
  intros [<-|Hin].
  - split; [reflexivity | now left].
  - destruct (completion (getTmdbIdFromImdb _ _ _)) as [[n|]|e]; try now destruct Hin.
    destruct (Z.eqb_spec n 0) as [E|N]; [now destruct Hin|]. destruct Hin as [<-|[]].
    split; [reflexivity|]. right. now exists n.
Qed.

(** X4 on the lookup URL of a film request. *)
Lemma X4_witness_lookup_url :
  Js.startsWith "https://api.themoviedb.org/3/find/tt0133093?api_key=k&external_source=imdb_id"
    "https://api.themoviedb.org/3/" = true.
Proof.
  refine (proj1 (X4_requests_are_the_two_api_urls (Some "k") IsoDate.parse
                   Sample.providerNoMatch Sample.now (Sample.request "tt0133093")
                   "https://api.themoviedb.org/3/find/tt0133093?api_key=k&external_source=imdb_id"
                   _)).
  left. reflexivity.
Defined.

(** X5: the answer depends on the provider only through its answers to the
    lookup URL and to the release-dates URLs: two providers that agree there
    get the same answer and the same requests. *)
Theorem X5_only_the_two_endpoints_matter
    (env : option string) (Date_parse : string -> option Z)
    (provider provider' : Provider) (now : Z) (args : StreamArgs) :
  let imdbId := Js.split0 ":" (args_id args) in
  fetchFind provider (findUrl env imdbId) = fetchFind provider' (findUrl env imdbId) ->
  (forall tmdbId,
     fetchReleaseDates provider (releaseDatesUrl env tmdbId)
     = fetchReleaseDates provider' (releaseDatesUrl env tmdbId)) ->
  streamHandler env Date_parse provider now args
  = streamHandler env Date_parse provider' now args.
Proof.
  intros imdbId Hfind Hrel. unfold streamHandler. fold imdbId.
  destruct (negb (Js.truthy (TMDB_API_KEY env))); [reflexivity|].
  destruct (negb (args_type args =? "movie")%string); [reflexivity|].
  destruct (negb (Js.truthy imdbId) || negb (Js.startsWith imdbId "tt")); [reflexivity|].
  f_equal. unfold lookup, getTmdbIdFromImdb, getDigitalReleaseDate, fetchJson.
  rewrite Hfind. apply bind_ext. intros tmdbId.
  destruct (truthyId tmdbId) as [n|]; [|reflexivity].
  now rewrite Hrel.
Qed.

(** X5 for two providers that differ only on URLs that are never asked. *)
Lemma X5_witness_other_urls :
  streamHandler (Some "k") IsoDate.parse Sample.providerNoMatch Sample.now
    (Sample.request "tt0133093")
  = streamHandler (Some "k") IsoDate.parse
      {| fetchFind := fun url =>
           if Js.startsWith url "https://api.themoviedb.org/3/find/"
           then Sample.answer 200 (Some {| movie_results := Some [] |})
           else Sample.answer 200 (Some (Sample.found 603));
         fetchReleaseDates := fun _ => None |}
      Sample.now (Sample.request "tt0133093").
Proof.
  apply X5_only_the_two_endpoints_matter.
  - reflexivity.
  - reflexivity.
Defined.

(** ** The entries of an answer *)

Section Answers.

Variable env : option string.
Variable Date_parse : string -> option Z.
Variable provider : Provider.
Variable args : StreamArgs.

(** Either the answer is the same at every time and is not about a release
    time, or it is the entry for a found date at every time. *)
Lemma handler_by_clock :
  (exists answer,
     (forall now, completion (streamHandler env Date_parse provider now args) = answer) /\
     forall streams entry, answer = Return streams -> In entry streams ->
       (In (name entry) landingNames /\
        externalUrl entry = "https://www.themoviedb.org") \/
       (name entry = "No digital date" /\
        exists n, n <> 0 /\
          completion (getTmdbIdFromImdb env provider (Js.split0 ":" (args_id args)))
            = Return (Some n) /\
          externalUrl entry = tmdbUrlOf n))
  \/
  (exists n plannedDate,
     n <> 0 /\
     completion (getTmdbIdFromImdb env provider (Js.split0 ":" (args_id args)))
       = Return (Some n) /\
     forall now, completion (streamHandler env Date_parse provider now args)
                 = Return [entryForDate Date_parse now (tmdbUrlOf n) plannedDate]).
Proof.
  destruct (Js.truthy (TMDB_API_KEY env)) eqn:Hk.
  2: { left. exists (Return [configurationError]). split.
       - intros now. now rewrite (handler_unconfigured env Date_parse provider now args Hk).
       - intros streams entry [= <-] [<-|[]]. left. simpl. auto. }
  destruct ((args_type args =? "movie")%string && Js.startsWith (args_id args) "tt") eqn:Hc.
  2: { left. exists (Return []). split.
       - intros now. now rewrite (handler_rejects env Date_parse provider now args Hk Hc).
       - intros streams entry [= <-] []. }
  apply andb_true_iff in Hc. destruct Hc as [Ht Hp]. apply String.eqb_eq in Ht.
  assert (forall now,
            completion (streamHandler env Date_parse provider now args)
            = match completion (lookup env Date_parse provider now
                                  (Js.split0 ":" (args_id args))) with
              | Return a => Return a
              | Throw _ => Return [tmdbError]
              end) as Hh.
  { intros now. rewrite (handler_looks_up env Date_parse provider now args Hk Ht Hp).
    apply completion_tryCatch. }
  destruct (completion (getTmdbIdFromImdb env provider (Js.split0 ":" (args_id args))))
    as [tmdbId|e] eqn:Hid.
  2: { left. exists (Return [tmdbError]). split.
       - intros now. now rewrite Hh, completion_lookup, Hid.
       - intros streams entry [= <-] [<-|[]]. left. simpl. auto. }
  destruct (truthyId tmdbId) as [n|] eqn:Hn.
  2: { left. exists (Return [noTmdbMatch (Js.split0 ":" (args_id args))]). split.
       - intros now. now rewrite Hh, completion_lookup, Hid, Hn.
       - intros streams entry [= <-] [<-|[]]. left. simpl. auto. }
  assert (tmdbId = Some n /\ n <> 0) as [-> Hnz].
  { unfold truthyId in Hn. destruct tmdbId as [m|]; [|discriminate].
    destruct (Z.eqb_spec m 0); [discriminate|]. now injection Hn as ->. }
  destruct (completion (getDigitalReleaseDate env Date_parse provider n)) as [d|e] eqn:Hd.
  2: { left. exists (Return [tmdbError]). split.
       - intros now. now rewrite Hh, completion_lookup, Hid, Hn, Hd.
       - intros streams entry [= <-] [<-|[]]. left. simpl. auto. }
  destruct (truthyDate d) as [plannedDate|] eqn:Hpd.
  - right. exists n, plannedDate. split; [exact Hnz|]. split; [reflexivity|].
    intros now. now rewrite Hh, completion_lookup, Hid, Hn, Hd, Hpd.
  - left. exists (Return [noDigitalDate (tmdbUrlOf n)]). split.
    + intros now. now rewrite Hh, completion_lookup, Hid, Hn, Hd, Hpd.
    + intros streams entry [= <-] [<-|[]]. right. split; [reflexivity|].
      exists n. auto.
Qed.

Lemma entryForDate_cases now tmdbUrl plannedDate :
  let entry := entryForDate Date_parse now tmdbUrl plannedDate in
  externalUrl entry = tmdbUrl /\
  ((Date_parse plannedDate = None /\ name entry = "Not yet available") \/
   (exists t, Date_parse plannedDate = Some t /\ t <= now /\
              entry = digitalRelease (dateOnlyOf plannedDate) tmdbUrl) \/
   (exists t, Date_parse plannedDate = Some t /\ now < t /\
              entry = notAvailableYet (dateOnlyOf plannedDate) tmdbUrl)).
Proof.
  unfold entryForDate. destruct (Date_parse plannedDate) as [t|]; [|now auto].
  destruct (Z.leb_spec t now); split; try reflexivity; right; [left|right]; eauto.
Qed.

End Answers.

(** X6: every entry of every answer has one of the seven names of the
    handler.  "Configuration error", "No TMDB match" and "TMDB error" carry
    the generic landing link; the other four carry the link to the page of
    the non-zero identifier the lookup returned. *)
Theorem X6_entries_and_their_links
    (env : option string) (Date_parse : string -> option Z)
    (provider : Provider) (now : Z) (args : StreamArgs)
    (streams : list Stream) (entry : Stream) :
  completion (streamHandler env Date_parse provider now args) = Return streams ->
  In entry streams ->
  (In (name entry) ["Configuration error"; "No TMDB match"; "TMDB error"] /\
   externalUrl entry = "https://www.themoviedb.org")
  \/
  (In (name entry) ["No digital date"; "Not yet available"; "Digital release";
                    "⏳ Not Available Yet"] /\
   exists tmdbId,
     tmdbId <> 0 /\
     completion (getTmdbIdFromImdb env provider (Js.split0 ":" (args_id args)))
       = Return (Some tmdbId) /\
     externalUrl entry = "https://www.themoviedb.org/movie/" ++ Js.ofNumber tmdbId).
Proof.
  intros Hanswer Hin.
  destruct (handler_by_clock env Date_parse provider args)
    as [[answer [Hsame Hnames]]|[n [plannedDate [Hnz [Hid Hentry]]]]].
  - rewrite Hsame in Hanswer.
    destruct (Hnames streams entry Hanswer Hin) as [H|[Hname [n H]]]; [left; exact H|].
    right. split; [rewrite Hname; simpl; auto | exists n; exact H].
  - rewrite Hentry in Hanswer. injection Hanswer as <-. destruct Hin as [<-|[]].
    right. split; [|exists n; repeat split; try assumption;
                     apply (entryForDate_cases Date_parse now (tmdbUrlOf n) plannedDate)].
    destruct (entryForDate_cases Date_parse now (tmdbUrlOf n) plannedDate)
      as [_ [[_ ->]|[[t [_ [_ ->]]]|[t [_ [_ ->]]]]]]; simpl; auto.
Qed.

(** X6 on the answer to a film request without a match. *)
Lemma X6_witness_no_match :
  (In "No TMDB match" ["Configuration error"; "No TMDB match"; "TMDB error"] /\
   "https://www.themoviedb.org" = "https://www.themoviedb.org")
  \/
  (In "No TMDB match" ["No digital date"; "Not yet available"; "Digital release";
                       "⏳ Not Available Yet"] /\
   exists tmdbId,
     tmdbId <> 0 /\
     completion (getTmdbIdFromImdb (Some "k") Sample.providerNoMatch
                   (Js.split0 ":" "tt0000000")) = Return (Some tmdbId) /\
     "https://www.themoviedb.org" = "https://www.themoviedb.org/movie/" ++ Js.ofNumber tmdbId).
Proof.
  apply (X6_entries_and_their_links (Some "k") IsoDate.parse Sample.providerNoMatch
           Sample.now (Sample.request "tt0000000")
           [noTmdbMatch "tt0000000"] (noTmdbMatch "tt0000000")).
  - reflexivity.
  - left. reflexivity.
Defined.

(** X7: the clock matters only for the choice between "Digital release"
    and "Not Available Yet", and that choice is monotone.  With the same
    provider, an answer that is not "Not Available Yet" is the answer at
    every later time, and an answer that is not "Digital release" was the
    answer at every earlier time. *)
Theorem X7_released_stays_released
    (env : option string) (Date_parse : string -> option Z)
    (provider : Provider) (args : StreamArgs) (now later : Z) :
  now <= later ->
  let answer t := completion (streamHandler env Date_parse provider t args) in
  (forall streams,
     answer now = Return streams ->
     (forall entry, In entry streams -> name entry <> "⏳ Not Available Yet") ->
     answer later = Return streams) /\
  (forall streams,
     answer later = Return streams ->
     (forall entry, In entry streams -> name entry <> "Digital release") ->
     answer now = Return streams).
Proof.
  intros Hle answer. unfold answer.
  destruct (handler_by_clock env Date_parse provider args)
    as [[fixed [Hsame _]]|[n [plannedDate [_ [_ Hentry]]]]].
  - split; intros streams H _; now rewrite Hsame in *.
  - rewrite !Hentry. unfold entryForDate.
    destruct (Date_parse plannedDate) as [t|]; [|now split].
    destruct (Z.leb_spec t now); destruct (Z.leb_spec t later); try lia.
    + now split.
    + split; [intros streams [= <-] Hname | intros streams [= <-] Hname];
        exfalso; eapply Hname; try (left; reflexivity); reflexivity.
    + now split.
Qed.

(** X7 for a film released on 2024-05-01: released on 2024-05-15, and
    still released a day later. *)
Lemma X7_witness_a_day_later :
  completion (streamHandler (Some "k") IsoDate.parse
                (Sample.providerWith 200 (Some (Sample.oneDate "2024-05-01")))
                (Sample.now + IsoDate.msPerDay) (Sample.request "tt0133093"))
  = Return [digitalRelease "2024-05-01" "https://www.themoviedb.org/movie/603"].
Proof.
  apply (proj1 (X7_released_stays_released (Some "k") IsoDate.parse
                  (Sample.providerWith 200 (Some (Sample.oneDate "2024-05-01")))
                  (Sample.request "tt0133093") Sample.now
                  (Sample.now + IsoDate.msPerDay) ltac:(vm_compute; discriminate))).
  - vm_compute. reflexivity.
  - intros entry [<-|[]]. discriminate.
Defined.

(** X8: with an API key set, the handler answers with an entry exactly the
    requests the manifest announces (a type among [types], an identifier
    starting with one of [idPrefixes]) and with the empty list exactly the
    others; the manifest announces the one resource "stream". *)
Theorem X8_serves_what_the_manifest_announces
    (env : option string) (Date_parse : string -> option Z)
    (provider : Provider) (now : Z) (args : StreamArgs) :
  TMDB_API_KEY env <> "" ->
  let answer := completion (streamHandler env Date_parse provider now args) in
  resources manifest = ["stream"] /\
  (announced manifest args <-> exists entry, answer = Return [entry]) /\
  (~ announced manifest args <-> answer = Return []).
Proof.
  intros Hk answer. apply truthy_nonempty in Hk.
  assert (announced manifest args <->
          args_type args = "movie" /\ Js.startsWith (args_id args) "tt" = true) as Hann.
  { unfold announced. simpl. split.
    - intros [[<-|[]] [prefix [[<-|[]] Hp]]]. now split.
    - intros [-> Hp]. split; [now left|]. exists "tt". split; [now left | exact Hp]. }
  split; [reflexivity|]. unfold answer.
  destruct (String.eqb_spec (args_type args) "movie") as [Ht|Ht].
  - destruct (Js.startsWith (args_id args) "tt") eqn:Hp.
    + rewrite (handler_looks_up env Date_parse provider now args Hk Ht Hp).
      destruct (tryCatch_one_entry _ (lookup_one_or_throw env Date_parse provider now
                                        (Js.split0 ":" (args_id args)))) as [entry ->].
      rewrite Hann. split; split.
      * intros _. now exists entry.
      * intros _. now split.
      * intros H. exfalso. apply H. now split.
      * discriminate.
    + rewrite (handler_rejects env Date_parse provider now args Hk)
        by (rewrite Hp; apply andb_false_r).
      rewrite Hann. split; split.
      * intros [_ H]. discriminate.
      * intros [entry H]. discriminate.
      * reflexivity.
      * intros _ [_ H]. discriminate.
  - rewrite (handler_rejects env Date_parse provider now args Hk)
      by (apply String.eqb_neq in Ht; now rewrite Ht).
    rewrite Hann. split; split.
    + intros [H _]. contradiction.
    + intros [entry H]. discriminate.
    + reflexivity.
    + intros _ [H _]. contradiction.
Qed.

(** X8 for a series request, which the manifest does not announce. *)
Lemma X8_witness_series :
  ~ announced manifest {| args_type := "series"; args_id := "tt0944947:1:1" |}.
Proof.
  apply (X8_serves_what_the_manifest_announces (Some "k") IsoDate.parse
           Sample.providerNoMatch Sample.now
           {| args_type := "series"; args_id := "tt0944947:1:1" |}).
  - discriminate.
  - reflexivity.
Defined.

(** ** Equal release times *)

Lemma sort_head_first_earliest (Date_parse : string -> option Z) (l : list string) (h : string) :
  allParse Date_parse l ->
  hd_error (Js.sort (compareDates Date_parse) l) = Some h ->
  firstEarliestOf Date_parse l h.
Proof.
  revert h. induction l as [|x r IH]; intros h Hp Hh; [discriminate|].
  assert (allParse Date_parse r) as Hpr by (intros d Hd; apply Hp; now right).
  simpl in Hh.
  destruct (Js.sort (compareDates Date_parse) r) as [|y s] eqn:E.
  - apply (proj1 (sort_nil Date_parse r)) in E. subst r. injection Hh as <-.
    exists [], []. split; [reflexivity|]. split; intros z [].
  - destruct (IH y Hpr eq_refl) as [before [after [Hr [Hb Ha]]]].
    assert (In y r) as Hy by (rewrite Hr; apply in_elt).
    assert (compareDates Date_parse x y = timeOf Date_parse x - timeOf Date_parse y) as Hc.
    { apply compareDates_time; [apply Hp; now left | now apply Hpr]. }
    simpl in Hh. destruct (Z.leb_spec (compareDates Date_parse x y) 0) as [Hle|Hgt];
      injection Hh as <-.
    + exists [], r. split; [reflexivity|]. split; [intros z []|].
      intros z Hz. rewrite Hr in Hz. apply in_app_or in Hz.
      destruct Hz as [Hz|[<-|Hz]].
      * specialize (Hb z Hz). lia.
      * lia.
      * specialize (Ha z Hz). lia.
    + exists (x :: before), after. split; [now rewrite Hr|]. split; [|exact Ha].
      intros z [<-|Hz]; [lia | now apply Hb].
Qed.

(** X9: when all candidate dates parse, the date the resolver returns is the
    first of the candidates, in the order of the provider's response, that
    has the earliest time: every candidate listed before it is strictly
    later and none after it is earlier.  The candidates are the digital
    dates of the first US region when it has any, else those of all
    regions. *)
Theorem X9_first_of_the_earliest
    (Date_parse : string -> option Z) (data : TmdbReleaseDatesResponse) (d : string) :
  let items := resultsOf data in
  let candidates := candidatesOf data in
  allParse Date_parse candidates ->
  digitalDateOf Date_parse data = Some d ->
  firstEarliestOf Date_parse candidates d /\
  (forall us, firstUS items us -> getDigitalDates [us] <> [] ->
              candidates = getDigitalDates [us]) /\
  (forall us, firstUS items us -> getDigitalDates [us] = [] ->
              candidates = getDigitalDates items) /\
  ((forall r, In r items -> iso_3166_1 r <> "US") -> candidates = getDigitalDates items).
Proof.
  intros items candidates Hp Hd. split; [|split; [|split]].
  - rewrite digitalDateOf_candidates in Hd. now apply sort_head_first_earliest.
  - intros us Hus Hne. unfold candidates, candidatesOf. fold items.
    rewrite (find_firstUS items us Hus).
    now destruct (getDigitalDates [us]).
  - intros us Hus Hnil. unfold candidates, candidatesOf. fold items.
    now rewrite (find_firstUS items us Hus), Hnil.
  - intros Hno. unfold candidates, candidatesOf. fold items.
    now rewrite (find_noUS items Hno).
Qed.

(** X9 for two US releases at the same instant, written differently: the
    one listed first is returned. *)
Lemma X9_witness_same_instant :
  firstEarliestOf IsoDate.parse
    ["2024-06-01"; "2024-05-01T00:00:00.000Z"; "2024-05-01"]
    "2024-05-01T00:00:00.000Z".
Proof.
  apply (X9_first_of_the_earliest IsoDate.parse
           {| results := Some [ Sample.region "US"
                                  [ Sample.digital "2024-06-01";
                                    Sample.digital "2024-05-01T00:00:00.000Z";
                                    Sample.digital "2024-05-01" ] ] |}).
  - intros d [<-|[<-|[<-|[]]]]; eexists; vm_compute; reflexivity.
  - vm_compute. reflexivity.
Defined.

(** ** The date shown *)

Lemma digit_bounds (c : ascii) (d : Z) : IsoDate.digit c = Some d -> 0 <= d <= 9.
Proof.
  unfold IsoDate.digit.
  destruct (Z.leb_spec 48 (Z.of_nat (nat_of_ascii c)));
    destruct (Z.leb_spec (Z.of_nat (nat_of_ascii c)) 57); simpl;
    intros [= <-] || discriminate. lia.
Qed.

Lemma digit_not_T (c : ascii) (d : Z) : IsoDate.digit c = Some d -> Ascii.eqb c "T" = false.
Proof.
  destruct (Ascii.eqb_spec c "T") as [->|]; [|reflexivity].
  vm_compute. discriminate.
Qed.

Ltac digit_of H c :=
  let d := fresh "d" in
  let D := fresh "D" in
  destruct (IsoDate.digit c) as [d|] eqn:D; cbv beta iota in H; [|discriminate H];
  pose proof (digit_bounds c d D); pose proof (digit_not_T c d D).

(** X10: for a release date that is a UTC timestamp
    [YYYY-MM-DDTHH:mm:ss.sssZ] of the strict shared format (a day that
    exists in its month, an hour from 00 to 23), and an engine that reads
    that format, the date shown in the titles is its first ten characters
    [YYYY-MM-DD], and that date is the UTC day of the release: the engine
    parses it to the midnight at or before the release time, less than a
    day away.  Timestamps the engine reads beyond the strict format, such as
    the hour 24:00:00.000, are not covered. *)
Theorem X10_timestamp_shows_its_day
    (Date_parse : string -> option Z) (plannedDate : string) (releaseTime : Z) :
  readsIso Date_parse ->
  String.length plannedDate = 24%nat ->
  IsoDate.parse plannedDate = Some releaseTime ->
  dateOnlyOf plannedDate = substring 0 10 plannedDate /\
  exists midnight,
    Date_parse (dateOnlyOf plannedDate) = Some midnight /\
    Date_parse plannedDate = Some releaseTime /\
    midnight <= releaseTime < midnight + IsoDate.msPerDay.
Proof.
  revert plannedDate releaseTime. intros s t Hiso Hlen Hparse.
  pose proof (Hiso s t Hparse) as Hengine.
  do 24 (destruct s as [|?c s]; [discriminate Hlen|]).
  destruct s; [|discriminate Hlen]. clear Hlen.
  unfold IsoDate.parse in Hparse. cbn [String.length Nat.eqb] in Hparse.
  match type of Hparse with context [IsoDate.date ?S] => set (str := S) in * end.
  assert (IsoDate.parse (substring 0 10 str) = IsoDate.date str) as Hsame by reflexivity.
  destruct (IsoDate.date str) as [day|] eqn:Hd; [|discriminate].
  destruct (IsoDate.time str) as [tm|] eqn:Ht; [|discriminate].
  injection Hparse as <-.
  unfold IsoDate.date, IsoDate.field, str in Hd.
  cbn [substring String.length Nat.eqb IsoDate.digits IsoDate.charAt get] in Hd.
  digit_of Hd c. digit_of Hd c0. digit_of Hd c1. digit_of Hd c2.
  digit_of Hd c4. digit_of Hd c5. digit_of Hd c7. digit_of Hd c8.
  destruct (_ && _) eqn:Hc in Hd; [|discriminate]. clear Hd.
  repeat (apply andb_true_iff in Hc; destruct Hc as [Hc ?]).
  apply Ascii.eqb_eq in Hc. 
  match goal with H : Ascii.eqb "-" c6 = true |- _ => apply Ascii.eqb_eq in H; subst c6 end.
  subst c3.
  unfold IsoDate.time, IsoDate.field, str in Ht.
  cbn [substring String.length Nat.eqb IsoDate.digits IsoDate.charAt get] in Ht.
  digit_of Ht c10. digit_of Ht c11. digit_of Ht c13. digit_of Ht c14.
  digit_of Ht c16. digit_of Ht c17. digit_of Ht c19. digit_of Ht c20. digit_of Ht c21.
  destruct (_ && _) eqn:Hc in Ht; [|discriminate].
  apply (f_equal (fun o => match o with Some v => v | None => 0 end)) in Ht.
  cbv beta iota in Ht. subst tm.
  repeat (apply andb_true_iff in Hc; destruct Hc as [Hc ?]).
  apply Ascii.eqb_eq in Hc. subst c9.
  assert (dateOnlyOf str = substring 0 10 str) as Hshown.
  { unfold dateOnlyOf, Js.orElse, str. cbn [Js.split0].
    repeat match goal with
           | H : Ascii.eqb _ "T" = false |- _ => rewrite H; clear H
           end.
    reflexivity. }
  split; [exact Hshown|]. exists day. rewrite Hshown.
  split; [apply Hiso; exact Hsame|]. split; [exact Hengine|].
  repeat match goal with
         | H : (_ <=? _) = true |- _ => apply Z.leb_le in H
         end.
  unfold IsoDate.msPerDay. lia.
Qed.

(** X10 for a release in the afternoon of 2024-05-01. *)
Lemma X10_witness_afternoon :
  dateOnlyOf "2024-05-01T13:30:00.000Z" = "2024-05-01".
Proof.
  refine (proj1 (X10_timestamp_shows_its_day IsoDate.parse
                   "2024-05-01T13:30:00.000Z" 1714570200000 _ _ _)).
  - intros s t H. exact H.
  - reflexivity.
  - vm_compute. reflexivity.
Defined.

(** ** More on the resolver and the identifier *)

(** X11: the resolver finds no date exactly when no region of the response
    holds a release of type 4 with a non-empty date (regions without
    [release_dates] and a response without [results] hold none), whatever
    the date parser; and a date it returns is the non-empty date of such a
    release. *)
Theorem X11_absent_iff_no_digital_release
    (Date_parse : string -> option Z) (data : TmdbReleaseDatesResponse) :
  (digitalDateOf Date_parse data = None <->
   forall result release,
     In result (resultsOf data) -> In release (releasesOf result) ->
     type release <> 4 \/ release_date release = "") /\
  (forall d, digitalDateOf Date_parse data = Some d ->
     d <> "" /\
     exists result release,
       In result (resultsOf data) /\ In release (releasesOf result) /\
       type release = 4 /\ release_date release = d).
Proof.
  split.
  - split.
    + intros Hnone result release Hr Hrel.
      destruct (Z.eq_dec (type release) 4) as [Ht|Ht]; [|now left].
      destruct (String.string_dec (release_date release) "") as [Hd|Hd]; [now right|].
      exfalso.
      assert (In (release_date release) (getDigitalDates (resultsOf data))) as Hin.
      { apply getDigitalDates_In. exists result, release. repeat split; auto. }
      pose proof (digitalDateOf_candidates Date_parse data) as Hc.
      rewrite Hnone in Hc. symmetry in Hc.
      assert (candidatesOf data = []) as Hnil.
      { apply (sort_nil Date_parse).
        now destruct (Js.sort (compareDates Date_parse) (candidatesOf data)). }
      unfold candidatesOf in Hnil.
      destruct (getDigitalDates match find _ (resultsOf data) with
                                | Some r => [r]
                                | None => []
                                end); [|discriminate].
      rewrite Hnil in Hin. destruct Hin.
    + intros Hnone. apply digitalDateOf_none.
      intros d [result [release [Hr [Hrel [[Ht Hd] _]]]]].
      destruct (Hnone result release Hr Hrel); contradiction.
  - intros d Hd. split.
    + apply truthy_nonempty. exact (digitalDateOf_truthy Date_parse data d Hd).
    + destruct (digitalDateOf_some Date_parse data d Hd)
        as [result [release [Hr [Hrel [[Ht _] Hdate]]]]].
      now exists result, release.
Qed.

Lemma lacks_split0 (sep : ascii) (s : string) : lacks sep (Js.split0 sep s) = true.
Proof.
  induction s as [|c s IH]; [reflexivity|].
  rewrite split0_cons. destruct (Ascii.eqb c sep) eqn:E; [reflexivity|].
  simpl. now rewrite E, IH.
Qed.

(** X12: an identifier that is looked up starts with "tt" and holds no
    colon: whenever the handler requests anything, its first request is
    [/find/] followed by such an identifier. *)
Theorem X12_looked_up_identifier_is_clean
    (env : option string) (Date_parse : string -> option Z)
    (provider : Provider) (now : Z) (args : StreamArgs) (url : string) :
  hd_error (requests (streamHandler env Date_parse provider now args)) = Some url ->
  exists imdbId,
    url = "https://api.themoviedb.org/3/find/" ++ imdbId ++ "?api_key=" ++ TMDB_API_KEY env
            ++ "&external_source=imdb_id" /\
    Js.startsWith imdbId "tt" = true /\
    lacks ":" imdbId = true /\
    Js.startsWith (args_id args) imdbId = true.
Proof.
  rewrite requests_streamHandler.
  destruct (Js.truthy (TMDB_API_KEY env)); [|discriminate].
  destruct (args_type args =? "movie")%string; [|discriminate].
  destruct (Js.startsWith (args_id args) "tt") eqn:Hp; [|discriminate].
  cbn [andb hd_error]. intros [= <-].
  exists (Js.split0 ":" (args_id args)). split; [reflexivity|]. split; [|split].
  - now rewrite startsWith_tt_split0.
  - apply lacks_split0.
  - apply split0_prefix.
Qed.

(** X12 for the identifier tt1234:1:2. *)
Lemma X12_witness_suffixed :
  exists imdbId,
    "https://api.themoviedb.org/3/find/tt1234?api_key=k&external_source=imdb_id"
    = "https://api.themoviedb.org/3/find/" ++ imdbId ++ "?api_key=" ++ TMDB_API_KEY (Some "k")
        ++ "&external_source=imdb_id" /\
    Js.startsWith imdbId "tt" = true /\
    lacks ":" imdbId = true /\
    Js.startsWith "tt1234:1:2" imdbId = true.
Proof.
  apply (X12_looked_up_identifier_is_clean (Some "k") IsoDate.parse Sample.providerNoMatch
           Sample.now (Sample.request "tt1234:1:2")).
  reflexivity.
Defined.

(** X11 on [Sample.usAndOthers]: the date found is borne by a release of
    type 4. *)
Lemma X11_witness_us_and_others :
  "2024-05-01" <> "" /\
  exists result release,
    In result (resultsOf Sample.usAndOthers) /\ In release (releasesOf result) /\
    type release = 4 /\ release_date release = "2024-05-01".
Proof.
  apply (proj2 (X11_absent_iff_no_digital_release IsoDate.parse Sample.usAndOthers)).
  vm_compute. reflexivity.
Defined.

(** X3 for a series request: nothing is requested. *)
Lemma X3_witness_series :
  requests (streamHandler (Some "k") IsoDate.parse Sample.providerNoMatch Sample.now
              {| args_type := "series"; args_id := "tt0944947:1:1" |}) = [].
Proof.
  apply (proj1 (proj2 (X3_lookup_then_release_dates (Some "k") IsoDate.parse
                         Sample.providerNoMatch Sample.now
                         {| args_type := "series"; args_id := "tt0944947:1:1" |}))).
  right. left. discriminate.
Defined.
